(** * Polling places: the simulation of [simulate.py]

    A shallow embedding of the voter record, the bank of voting booths, the
    arrival generator, the simulation loop and the two search routines of
    [simulate.py], followed by the properties of the specification that are
    settled on it.

    Conventions of the model.
    - Python floats (times, durations, rates, thresholds) are exact rationals
      [Q]; [a > b] is [py_gt a b] and the truth value of a float is
      [py_truthy]. Rounding, infinities and NaN are outside the model: the
      properties below rest on the comparisons the code makes and on the
      sums it stores, not on identities of exact arithmetic.
    - Python integers are [Z].
    - A raised exception is the [Raise] outcome of [result]; [assert] is
      [py_assert].
    - A [Voter] object is mutated in place by the simulation and is held by
      reference in the booths' queue. The record below is the object's
      state; the queue holds the object's reference, which is its position in
      the arrival sequence.
    - [queue.PriorityQueue] is the Python standard library's. It is modelled
      by its contract: [put] adds an entry, [get] removes an entry with the
      least key, [qsize] counts the entries. Entries are the pairs
      [(departure time, voter)] of the source and are ordered by departure
      time. Python orders such pairs lexicographically and [Voter] defines no
      ordering, so on two entries with equal departure times the library
      raises [TypeError] if its heap happens to compare them; which entries
      are compared is internal to the library and this failure is left out of
      the model, which orders equal keys by insertion. What a call that
      reaches the queue does is therefore stated for a call that returns.
      The runs on concrete voters below have pairwise distinct departure
      times. The one general property that says that such calls return is
      the round trip of a voter whose departure time is strictly before
      those of the occupants; it is to be read for occupants whose departure
      times are pairwise distinct.
    - The module-level generator of [random] is the class [PyRandom]:
      [random.seed] and the draws made by [util.gen_voter_parameters] are its
      methods.
    - The two [while not all_voted] loops have no bound in the source. They
      take a number of iterations [fuel], and [None] is the outcome of a loop
      that was stopped by it. *)

From Stdlib Require Import ZArith QArith Lqa List Bool String Lia.
From Stdlib Require Import Permutation Sorted.
Import ListNotations.

Local Open Scope Q_scope.

(** * The model *)

(** ** Exceptions and results *)

Inductive exn : Type :=
| AssertionError (msg : string)
| TypeError
| IndexError.

Inductive result (A : Type) : Type :=
| Ok (a : A)
| Raise (e : exn).

Arguments Ok {A} a.
Arguments Raise {A} e.

Definition bind {A B : Type} (c : result A) (k : A -> result B) : result B :=
  match c with
  | Ok a => k a
  | Raise e => Raise e
  end.

Notation "x <- c ;; k" := (bind c (fun x => k))
  (at level 61, c at next level, right associativity).
Notation "' pat <- c ;; k" := (bind c (fun x => match x with pat => k end))
  (at level 61, pat pattern, c at next level, right associativity).

Definition py_assert (cond : bool) (msg : string) : result unit :=
  if cond then Ok tt else Raise (AssertionError msg).

(** [a > b] on floats. *)
Definition py_gt (a b : Q) : bool := negb (Qle_bool a b).

(** Truth value of an attribute that holds [None] or a float: [None] and
    [0.0] are false. *)
Definition py_truthy (o : option Q) : bool :=
  match o with
  | None => false
  | Some t => negb (Qeq_bool t 0)
  end.

(** [o + d] where [o] is an attribute that holds [None] or a float. *)
Definition py_add (o : option Q) (d : Q) : result Q :=
  match o with
  | None => Raise TypeError
  | Some t => Ok (t + d)
  end.

(** [sorted] on a list of integers. *)
Fixpoint py_sorted_insert (x : Z) (l : list Z) : list Z :=
  match l with
  | [] => [x]
  | y :: l' => if (x <=? y)%Z then x :: l else y :: py_sorted_insert x l'
  end.

Fixpoint py_sorted (l : list Z) : list Z :=
  match l with
  | [] => []
  | x :: l' => py_sorted_insert x (py_sorted l')
  end.

(** [l[i]] for an index that is not negative. *)
Definition py_index (l : list Z) (i : Z) : result Z :=
  match nth_error l (Z.to_nat i) with
  | Some x => Ok x
  | None => Raise IndexError
  end.

(** ** class Voter *)

Record Voter : Type := mkVoter {
  arrival_time : Q;
  voting_duration : Q;
  start_time : option Q;
  departure_time : option Q;
  has_voted : bool;
  is_impatient : bool
}.

(** [Voter.__init__] *)
Definition Voter_init (arrival_time voting_duration : Q) (is_impatient : bool)
  : Voter :=
  mkVoter arrival_time voting_duration None None false is_impatient.

Definition set_start_time (v : Voter) (t : Q) : Voter :=
  mkVoter (arrival_time v) (voting_duration v) (Some t) (departure_time v)
          (has_voted v) (is_impatient v).

Definition set_departure_time (v : Voter) (t : Q) : Voter :=
  mkVoter (arrival_time v) (voting_duration v) (start_time v) (Some t)
          (has_voted v) (is_impatient v).

Definition set_vote (v : Voter) (b : bool) : Voter :=
  mkVoter (arrival_time v) (voting_duration v) (start_time v)
          (departure_time v) b (is_impatient v).

(** ** queue.PriorityQueue, by contract *)

Module PriorityQueue.

(** An entry [(dt, v)]: the departure time and the voter's reference. *)
Definition entry : Type := (Q * nat)%type.

Definition t : Type := list entry.

Definition empty : t := [].

Definition qsize (q : t) : Z := Z.of_nat (List.length q).

Definition put (q : t) (e : entry) : t := q ++ [e].

(** The first entry with the least key, and the queue without it. On an
    empty queue Python's [get] blocks; this is [None]. *)
Fixpoint get (q : t) : option (entry * t) :=
  match q with
  | [] => None
  | e :: q' =>
      match get q' with
      | None => Some (e, [])
      | Some (m, rest) =>
          if Qle_bool (fst e) (fst m) then Some (e, q')
          else Some (m, e :: rest)
      end
  end.

End PriorityQueue.

(** ** class VotingBooths *)

Record VotingBooths : Type := mkVotingBooths {
  _num_booths : Z;
  _q : PriorityQueue.t
}.

(** [VotingBooths.__init__] *)
Definition VotingBooths_init (num_booths : Z) : VotingBooths :=
  mkVotingBooths num_booths PriorityQueue.empty.

Definition is_booth_available (self : VotingBooths) : bool :=
  (PriorityQueue.qsize (_q self) <? _num_booths self)%Z.

Definition is_some_booth_occupied (self : VotingBooths) : bool :=
  (PriorityQueue.qsize (_q self) >? 0)%Z.

(** [enter_booth(v)]: [ref] is the reference of the voter object [v]. *)
Definition enter_booth (self : VotingBooths) (ref : nat) (v : Voter)
  : result VotingBooths :=
  _ <- py_assert (is_booth_available self) "All booths in use"%string ;;
  _ <- py_assert (py_truthy (start_time v))
                 "Voter's start time must be set."%string ;;
  dt <- py_add (start_time v) (voting_duration v) ;;
  Ok (mkVotingBooths (_num_booths self)
                     (PriorityQueue.put (_q self) (dt, ref))).

(** [time_next_free()]: a [get] followed by a [put] of the same entry. The
    [None] branch is behind the assertion and is never taken. *)
Definition time_next_free (self : VotingBooths) : result (Q * VotingBooths) :=
  _ <- py_assert (is_some_booth_occupied self) "No booths in use"%string ;;
  match PriorityQueue.get (_q self) with
  | None => Raise (AssertionError "No booths in use"%string)
  | Some ((dt, v), rest) =>
      Ok (dt, mkVotingBooths (_num_booths self)
                             (PriorityQueue.put rest (dt, v)))
  end.

(** [exit_booth()]: returns the voter's reference and the departure time. *)
Definition exit_booth (self : VotingBooths)
  : result ((nat * Q) * VotingBooths) :=
  _ <- py_assert (is_some_booth_occupied self) "No booths in use"%string ;;
  match PriorityQueue.get (_q self) with
  | None => Raise (AssertionError "No booths in use"%string)
  | Some ((dt, v), rest) =>
      Ok ((v, dt), mkVotingBooths (_num_booths self) rest)
  end.

(** ** class Precinct *)

Record Precinct : Type := mkPrecinct {
  name : string;
  hours_open : Z;
  num_voters : Z;
  arrival_rate : Q;
  voting_duration_rate : Q;
  impatience_prob : Q
}.

(** The body of the [for voter in voter_list] loop of [Precinct.simulate]:
    the voter as it is appended to [confirmed_voter_list], and the booths.
    The branch that ends in [continue] returns the voter as it came. *)
Definition process_voter (impatience_threshold : Q)
    (voting_booths : VotingBooths) (ref : nat) (voter : Voter)
  : result (Voter * VotingBooths) :=
  if is_booth_available voting_booths then
    let voter := set_start_time voter (arrival_time voter) in
    dt <- py_add (start_time voter) (voting_duration voter) ;;
    let voter := set_departure_time voter dt in
    voting_booths <- enter_booth voting_booths ref voter ;;
    Ok (set_vote voter true, voting_booths)
  else
    ' (next_avail, voting_booths) <- time_next_free voting_booths ;;
    if py_gt (arrival_time voter) next_avail then
      ' (_, voting_booths) <- exit_booth voting_booths ;;
      let voter := set_start_time voter (arrival_time voter) in
      dt <- py_add (start_time voter) (voting_duration voter) ;;
      let voter := set_departure_time voter dt in
      voting_booths <- enter_booth voting_booths ref voter ;;
      Ok (set_vote voter true, voting_booths)
    else
      let wait_time := next_avail - arrival_time voter in
      if py_gt wait_time impatience_threshold && is_impatient voter then
        Ok (voter, voting_booths)
      else
        ' (_, voting_booths) <- exit_booth voting_booths ;;
        let voter := set_start_time voter next_avail in
        dt <- py_add (start_time voter) (voting_duration voter) ;;
        let voter := set_departure_time voter dt in
        voting_booths <- enter_booth voting_booths ref voter ;;
        Ok (set_vote voter true, voting_booths).

(** The loop of [Precinct.simulate] over the arrival sequence. [ref] is the
    position of the head of [voter_list] in the whole sequence. *)
Fixpoint simulate_loop (impatience_threshold : Q) (voting_booths : VotingBooths)
    (ref : nat) (voter_list confirmed_voter_list : list Voter)
  : result (list Voter * VotingBooths) :=
  match voter_list with
  | [] => Ok (confirmed_voter_list, voting_booths)
  | voter :: rest =>
      ' (voter, voting_booths) <-
        process_voter impatience_threshold voting_booths ref voter ;;
      simulate_loop impatience_threshold voting_booths (S ref) rest
                    (confirmed_voter_list ++ [voter])
  end.

(** ** The random module *)

(** The module-level generator of [random]: its state, [random.seed], and
    the draws that [util.gen_voter_parameters] makes. Every draw takes the
    generator's state and returns the value with the next state. *)
Class PyRandom : Type := {
  rng : Type;
  seed_rng : Z -> rng;
  expovariate : Q -> rng -> Q * rng;
  bernoulli : Q -> rng -> bool * rng
}.

(** A generator that replays a tape of numbers chosen per seed: an
    exponential draw is the next number of the tape, a Bernoulli draw with
    probability [p] is true when the next number is below [p]. *)
Definition tape_random (tapes : Z -> list Q) : PyRandom :=
  {| rng := list Q;
     seed_rng := tapes;
     expovariate := fun _ s =>
       match s with
       | [] => (0, [])
       | x :: s' => (x, s')
       end;
     bernoulli := fun p s =>
       match s with
       | [] => (false, [])
       | u :: s' => (negb (Qle_bool p u), s')
       end |}.

(** The [for voter in outcomes] scan that computes [all_voted]. *)
Definition all_voted (outcomes : list Voter) : bool :=
  forallb has_voted outcomes.

(** The [for i in range(num_trials)] loop of both search routines: [trial i]
    is the while loop of trial [i], and its value is appended to the list. *)
Fixpoint for_trials (trial : nat -> option (result Z)) (range : list nat)
    (value_list : list Z) : option (result (list Z)) :=
  match range with
  | [] => Some (Ok value_list)
  | i :: range' =>
      match trial i with
      | None => None
      | Some (Raise e) => Some (Raise e)
      | Some (Ok value) => for_trials trial range' (value_list ++ [value])
      end
  end.

Section Simulation.

Context {R : PyRandom}.

(** Modelled from the spec: [util.gen_voter_parameters], which is not part
    of [simulate.py]. Three values are drawn from the seeded stream in a
    fixed order: the inter-arrival gap (exponential with [arrival_rate]),
    the voting duration (exponential with [voting_duration_rate]) and the
    impatience flag (Bernoulli with [impatience_prob]). *)
Definition gen_voter_parameters
    (arrival_rate voting_duration_rate impatience_prob : Q) (s : rng)
  : (Q * Q * bool) * rng :=
  let '(gap, s) := expovariate arrival_rate s in
  let '(voting_duration, s) := expovariate voting_duration_rate s in
  let '(is_impatient, s) := bernoulli impatience_prob s in
  ((gap, voting_duration, is_impatient), s).

(** The [for num in range(self.num_voters)] loop of
    [__generate_voter_list__], with [n] iterations left. *)
Fixpoint generate_loop (self : Precinct) (n : nat) (s : rng)
    (current_time : Q) (voter_list : list Voter) : list Voter :=
  match n with
  | O => voter_list
  | S n' =>
      let '((gap, voting_duration, is_impatient), s) :=
        gen_voter_parameters (arrival_rate self) (voting_duration_rate self)
                             (impatience_prob self) s in
      let current_time := current_time + gap in
      if py_gt current_time (inject_Z (hours_open self * 60)) then
        voter_list
      else
        let voter := Voter_init current_time voting_duration is_impatient in
        generate_loop self n' s current_time (voter_list ++ [voter])
  end.

(** [Precinct.__generate_voter_list__] *)
Definition generate_voter_list (self : Precinct) (seed : Z) : list Voter :=
  generate_loop self (Z.to_nat (num_voters self)) (seed_rng seed) 0 [].

(** [Precinct.simulate]: the returned list, and the booths as the call
    leaves them. *)
Definition simulate (self : Precinct) (seed : Z)
    (voting_booths : VotingBooths) (impatience_threshold : Q)
  : result (list Voter * VotingBooths) :=
  let confirmed_voter_list := [] in
  let voter_list := generate_voter_list self seed in
  simulate_loop impatience_threshold voting_booths 0 voter_list
                confirmed_voter_list.

(** The [while not all_voted] loop of [find_impatience_threshold] for one
    trial. *)
Fixpoint threshold_while (fuel : nat) (precinct : Precinct) (seed_i : Z)
    (num_booths : Z) (threshold : Z) : option (result Z) :=
  match fuel with
  | O => None
  | S fuel' =>
      let threshold := (threshold + 10)%Z in
      match simulate precinct seed_i (VotingBooths_init num_booths)
                     (inject_Z threshold) with
      | Raise e => Some (Raise e)
      | Ok (outcomes, _) =>
          if all_voted outcomes then Some (Ok threshold)
          else threshold_while fuel' precinct seed_i num_booths threshold
      end
  end.

(** The [while not all_voted] loop of [find_voting_booths_needed] for one
    trial. *)
Fixpoint booths_while (fuel : nat) (precinct : Precinct) (seed_i : Z)
    (imp_threshold : Q) (num_booths : Z) : option (result Z) :=
  match fuel with
  | O => None
  | S fuel' =>
      let num_booths := (num_booths + 1)%Z in
      match simulate precinct seed_i (VotingBooths_init num_booths)
                     imp_threshold with
      | Raise e => Some (Raise e)
      | Ok (outcomes, _) =>
          if all_voted outcomes then Some (Ok num_booths)
          else booths_while fuel' precinct seed_i imp_threshold num_booths
      end
  end.

Definition find_impatience_threshold (fuel : nat) (seed : Z)
    (precinct : Precinct) (num_booths : Z) (num_trials : Z)
  : option (result Z) :=
  if (num_trials >? 0)%Z then
    match for_trials
            (fun i => threshold_while fuel precinct (seed + Z.of_nat i)%Z
                                      num_booths (-9)%Z)
            (seq 0 (Z.to_nat num_trials)) [] with
    | None => None
    | Some (Raise e) => Some (Raise e)
    | Some (Ok threshold_list) =>
        let sorted_threshold_list := py_sorted threshold_list in
        let median :=
          py_index sorted_threshold_list
                   (Z.of_nat (List.length sorted_threshold_list) / 2)%Z in
        Some median
    end
  else Some (Raise (AssertionError EmptyString)).

Definition find_voting_booths_needed (fuel : nat) (seed : Z)
    (precinct : Precinct) (imp_threshold : Q) (num_trials : Z)
  : option (result Z) :=
  if (num_trials >? 0)%Z then
    match for_trials
            (fun i => booths_while fuel precinct (seed + Z.of_nat i)%Z
                                   imp_threshold 0%Z)
            (seq 0 (Z.to_nat num_trials)) [] with
    | None => None
    | Some (Raise e) => Some (Raise e)
    | Some (Ok num_booths_list) =>
        let sorted_num_booths_list := py_sorted num_booths_list in
        let median :=
          py_index sorted_num_booths_list
                   (Z.of_nat (List.length num_booths_list) / 2)%Z in
        Some median
    end
  else Some (Raise (AssertionError EmptyString)).

End Simulation.

(** ** cmd *)

(** The scan [for v in voters[::-1]] of the default branch of [cmd], on the
    reversed list: the departure time of the first voter whose departure
    time is true, [None] if there is none. *)
Fixpoint scan_departure (reversed : list Voter) : option Q :=
  match reversed with
  | [] => None
  | v :: rest =>
      if py_truthy (departure_time v) then departure_time v
      else scan_departure rest
  end.

(** [last_voter_departure_time] as the default branch of [cmd] computes it
    for a list that is not empty. *)
Definition last_voter_departure_time (voters : list Voter) : option Q :=
  scan_departure (rev voters).

(** [nv = len([v for v in voters if not v.has_voted])] *)
Definition nv (voters : list Voter) : nat :=
  List.length (filter (fun v => negb (has_voted v)) voters).

(** * Vocabulary of the properties *)

Definition start_time_error : exn :=
  AssertionError "Voter's start time must be set."%string.

Definition no_booths_error : exn := AssertionError "No booths in use"%string.

(** The capacity invariant of the spec: no more occupants than booths. *)
Definition within_capacity (vb : VotingBooths) : Prop :=
  (PriorityQueue.qsize (_q vb) <= _num_booths vb)%Z.

(** The voter [v] after it was admitted with start time [s]. *)
Definition admitted (v : Voter) (s : Q) : Voter :=
  set_vote (set_departure_time (set_start_time v s) (s + voting_duration v))
           true.

(** The two ways a voter ends up in the outcome list: as it came, or admitted
    at a start time that is not before its arrival. *)
Inductive processed (v : Voter) : Voter -> Prop :=
| processed_left : processed v v
| processed_admitted (s : Q) :
    arrival_time v <= s -> processed v (admitted v s).

(** A voter as the generator creates it. *)
Definition new_voter (v : Voter) : Prop :=
  start_time v = None /\ departure_time v = None /\ has_voted v = false.

(** The invariant of an outcome record: a voter that voted has both times
    set, departs [voting_duration] after its start and starts no earlier
    than it arrived; a voter that did not vote has both times unset. *)
Definition outcome_consistent (v : Voter) : Prop :=
  if has_voted v then
    exists s : Q,
      start_time v = Some s /\
      departure_time v = Some (s + voting_duration v) /\
      arrival_time v <= s
  else
    start_time v = None /\ departure_time v = None.


Definition count_voted (outcomes : list Voter) : nat :=
  List.length (filter has_voted outcomes).

Definition closing_time (self : Precinct) : Q :=
  inject_Z (hours_open self * 60).

(** The inter-arrival gap of a candidate [(gap, voting_duration,
    is_impatient)]. *)
Definition gap_of (c : Q * Q * bool) : Q := fst (fst c).

(** The running sums of the gaps, from the time [t]. *)
Fixpoint running_sums (t : Q) (gaps : list Q) : list Q :=
  match gaps with
  | [] => []
  | gap :: gaps' => (t + gap) :: running_sums (t + gap) gaps'
  end.

(** The voter made from a candidate and its cumulative arrival time. *)
Definition candidate_voter (tc : Q * (Q * Q * bool)) : Voter :=
  Voter_init (fst tc) (snd (fst (snd tc))) (snd (snd tc)).

(** The threshold tried in iteration [k] of the while loop, counted from 0,
    and the number of booths tried in iteration [k]. *)
Definition threshold_at (k : nat) : Z := (-9 + 10 * (Z.of_nat k + 1))%Z.

Definition booths_at (k : nat) : Z := (Z.of_nat k + 1)%Z.

Section Vocabulary.

Context {R : PyRandom}.

(** The candidates that [n] successive calls of [gen_voter_parameters] draw
    from the generator in state [s]. *)
Fixpoint candidates (self : Precinct) (n : nat) (s : rng)
  : list (Q * Q * bool) :=
  match n with
  | O => []
  | S n' =>
      let '(c, s') :=
        gen_voter_parameters (arrival_rate self) (voting_duration_rate self)
                             (impatience_prob self) s in
      c :: candidates self n' s'
  end.

(** The voters that [generate_loop] appends. *)
Fixpoint arrivals_from (self : Precinct) (n : nat) (s : rng) (t : Q)
  : list Voter :=
  match n with
  | O => []
  | S n' =>
      let '((gap, d, i), s') :=
        gen_voter_parameters (arrival_rate self) (voting_duration_rate self)
                             (impatience_prob self) s in
      if py_gt (t + gap) (closing_time self) then []
      else Voter_init (t + gap) d i :: arrivals_from self n' s' (t + gap)
  end.

(** The run of a trial with seed [seed_i] on a new bank. *)
Definition trial_run (precinct : Precinct) (seed_i : Z) (num_booths : Z)
    (threshold : Q) (voted : bool) : Prop :=
  exists (outcomes : list Voter) (booths_after : VotingBooths),
    simulate precinct seed_i (VotingBooths_init num_booths) threshold
    = Ok (outcomes, booths_after) /\
    all_voted outcomes = voted.

(** The trial converges in iteration [k]: every voter votes with the value
    tried in iteration [k], and not with the values tried before. *)
Definition threshold_converges (precinct : Precinct) (seed_i : Z)
    (num_booths : Z) (k : nat) : Prop :=
  trial_run precinct seed_i num_booths (inject_Z (threshold_at k)) true /\
  forall j, (j < k)%nat ->
    trial_run precinct seed_i num_booths (inject_Z (threshold_at j)) false.

Definition booths_converge (precinct : Precinct) (seed_i : Z)
    (imp_threshold : Q) (k : nat) : Prop :=
  trial_run precinct seed_i (booths_at k) imp_threshold true /\
  forall j, (j < k)%nat ->
    trial_run precinct seed_i (booths_at j) imp_threshold false.

End Vocabulary.

(** ** Concrete runs *)

(** The scenario of the spec: one booth, a voter at time 0 for 10 minutes
    and a voter at time 5 for 4 minutes. *)
Definition scenario (impatient1 impatient2 : bool) : list Voter :=
  [Voter_init 0 10 impatient1; Voter_init 5 4 impatient2].

(** A tape that makes the generator produce [scenario false true]. *)
Definition scenario_random : PyRandom :=
  tape_random (fun _ => [0; 10; 1;  5; 4; 0]).

Definition scenario_precinct : Precinct :=
  mkPrecinct "scenario" 1 2 1 1 (1 # 2).

(** Four voters and one booth: the second voter is impatient and votes for
    100 minutes if it stays. *)
Definition crowd_random : PyRandom :=
  tape_random (fun _ => [1; 10; 1;  1; 100; 0;  6; 1; 0;  1; 1; 0]).

Definition crowd_precinct : Precinct := mkPrecinct "crowd" 1 4 1 1 (1 # 2).

(** Three trials of two voters each. With seed 0 the second voter comes
    after the first has left; with seeds 1 and 2 the second voter is
    impatient and would wait 9 and 15 minutes for the only booth. *)
Definition trials_random : PyRandom :=
  tape_random (fun seed =>
    if (seed =? 0)%Z then [1; 10; 1;  20; 5; 1]
    else if (seed =? 1)%Z then [1; 10; 1;  1; 5; 0]
    else [1; 16; 1;  1; 5; 0]).

Definition trials_precinct : Precinct := mkPrecinct "trials" 1 2 1 1 (1 # 2).

(** ** Vocabulary of the further properties *)

Definition all_booths_error : exn := AssertionError "All booths in use"%string.

(** The chain of steps that the loop makes over an arrival sequence. *)
Inductive run_steps (thr : Q)
  : VotingBooths -> nat -> list Voter -> list Voter -> VotingBooths -> Prop :=
| run_done (vb : VotingBooths) (ref : nat) : run_steps thr vb ref [] [] vb
| run_step (vb vb1 vb' : VotingBooths) (ref : nat) (v v' : Voter)
    (vs outs : list Voter) :
    process_voter thr vb ref v = Ok (v', vb1) ->
    run_steps thr vb1 (S ref) vs outs vb' ->
    run_steps thr vb ref (v :: vs) (v' :: outs) vb'.

(** Arrival times in the order of the list. *)
Definition time_ordered (voters : list Voter) : Prop :=
  StronglySorted (fun v w => arrival_time v <= arrival_time w) voters.

Definition empty_precinct : Precinct := mkPrecinct "empty" 1 0 1 1 (1 # 2).

(** A voter that arrives after time 0 with a duration that is not
    negative. *)
Definition well_timed (v : Voter) : Prop :=
  0 < arrival_time v /\ 0 <= voting_duration v.

(** * Properties *)

(** ** Comparisons and truth values *)

Lemma py_gt_true (a b : Q) : py_gt a b = true <-> b < a.
Proof.
  unfold py_gt. rewrite negb_true_iff. split.
  - intros H. apply Qnot_le_lt. intros C. apply Qle_bool_iff in C. congruence.
  - intros H. destruct (Qle_bool a b) eqn:E; [|reflexivity].
    apply Qle_bool_iff in E. exfalso. apply (Qlt_not_le _ _ H E).
Qed.

Lemma py_gt_false (a b : Q) : py_gt a b = false <-> a <= b.
Proof.
  unfold py_gt. rewrite negb_false_iff. apply Qle_bool_iff.
Qed.

Lemma py_truthy_Some (t : Q) : py_truthy (Some t) = true <-> ~ t == 0.
Proof.
  simpl. rewrite negb_true_iff. split.
  - intros H C. apply Qeq_bool_iff in C. congruence.
  - intros H. destruct (Qeq_bool t 0) eqn:E; [|reflexivity].
    apply Qeq_bool_iff in E. contradiction.
Qed.

(** ** The priority queue *)

Module PriorityQueueFacts.
Import PriorityQueue.

Lemma get_None (q : t) : get q = None <-> q = [].
Proof.
  destruct q as [|e q]; simpl; [tauto|].
  split; [|discriminate].
  destruct (get q) as [[m rest]|]; [|discriminate].
  destruct (Qle_bool (fst e) (fst m)); discriminate.
Qed.

Lemma get_Permutation (q : t) (m : entry) (rest : t) :
  get q = Some (m, rest) -> Permutation q (m :: rest).
Proof.
  revert m rest. induction q as [|e q IH]; simpl; intros m rest H.
  - discriminate.
  - destruct (get q) as [[m' rest']|] eqn:E.
    + destruct (Qle_bool (fst e) (fst m')); inversion H; subst.
      * reflexivity.
      * rewrite (IH _ _ eq_refl). apply perm_swap.
    + apply get_None in E. subst q. inversion H; subst. reflexivity.
Qed.

Lemma get_least (q : t) (m : entry) (rest : t) :
  get q = Some (m, rest) -> Forall (fun e => fst m <= fst e) q.
Proof.
  revert m rest. induction q as [|e q IH]; simpl; intros m rest H.
  - constructor.
  - destruct (get q) as [[m' rest']|] eqn:E.
    + specialize (IH _ _ eq_refl).
      destruct (Qle_bool (fst e) (fst m')) eqn:L; inversion H; subst.
      * apply Qle_bool_iff in L. constructor; [apply Qle_refl|].
        eapply Forall_impl; [|exact IH]. simpl. intros a Ha.
        eapply Qle_trans; eassumption.
      * constructor; [|exact IH].
        apply Qlt_le_weak, Qnot_le_lt. intros C.
        apply Qle_bool_iff in C. congruence.
    + apply get_None in E. subst q. inversion H; subst.
      constructor; [apply Qle_refl|constructor].
Qed.

Lemma put_Permutation (q : t) (e : entry) : Permutation (put q e) (e :: q).
Proof. unfold put. symmetry. apply Permutation_cons_append. Qed.

End PriorityQueueFacts.

(** ** The booths *)

Lemma occupied_iff (vb : VotingBooths) :
  is_some_booth_occupied vb = true <-> _q vb <> [].
Proof.
  unfold is_some_booth_occupied, PriorityQueue.qsize.
  rewrite Z.gtb_ltb, Z.ltb_lt.
  destruct (_q vb); simpl; split; intros H; try congruence; lia.
Qed.

Lemma time_next_free_Ok (vb vb1 : VotingBooths) (next_free : Q) :
  time_next_free vb = Ok (next_free, vb1) ->
  exists v rest,
    PriorityQueue.get (_q vb) = Some ((next_free, v), rest) /\
    vb1 = mkVotingBooths (_num_booths vb)
                         (PriorityQueue.put rest (next_free, v)).
Proof.
  unfold time_next_free, py_assert.
  destruct (is_some_booth_occupied vb); simpl; [|discriminate].
  destruct (PriorityQueue.get (_q vb)) as [[[dt v] rest]|]; [|discriminate].
  intros H. inversion H; subst. eauto.
Qed.

Lemma time_next_free_Permutation (vb vb1 : VotingBooths) (next_free : Q) :
  time_next_free vb = Ok (next_free, vb1) ->
  _num_booths vb1 = _num_booths vb /\ Permutation (_q vb1) (_q vb).
Proof.
  intros H. apply time_next_free_Ok in H as (v & rest & Hget & ->). simpl.
  split; [reflexivity|].
  rewrite PriorityQueueFacts.put_Permutation.
  symmetry. apply PriorityQueueFacts.get_Permutation. exact Hget.
Qed.

(** After [time_next_free], the entry that [exit_booth] removes, when it
    returns, has the time that was returned as its key, a least key of the
    queue. *)
Lemma exit_after_time_next_free (vb vb1 vb2 : VotingBooths) (next_free : Q)
    (v : nat) (dt : Q) :
  time_next_free vb = Ok (next_free, vb1) ->
  exit_booth vb1 = Ok ((v, dt), vb2) ->
  dt == next_free /\
  _num_booths vb2 = _num_booths vb /\
  Permutation (_q vb) ((dt, v) :: _q vb2).
Proof.
  intros H Hexit.
  destruct (time_next_free_Permutation _ _ _ H) as [Hn Hp].
  apply time_next_free_Ok in H as (v0 & rest & Hget & ->). simpl in *.
  assert (Hleast := PriorityQueueFacts.get_least _ _ _ Hget).
  unfold exit_booth, py_assert in Hexit.
  destruct (is_some_booth_occupied _); simpl in Hexit; [|discriminate].
  destruct (PriorityQueue.get (PriorityQueue.put rest (next_free, v0)))
    as [[[dt' w] rest']|] eqn:G; [|discriminate].
  inversion Hexit; subst. simpl.
  assert (Hp' := PriorityQueueFacts.get_Permutation _ _ _ G).
  assert (Hl' := PriorityQueueFacts.get_least _ _ _ G).
  assert (Hin1 : In (dt, v) (_q vb)).
  { eapply Permutation_in; [exact Hp|].
    eapply Permutation_in; [symmetry; exact Hp'|]. left. reflexivity. }
  assert (Hin2 : In (next_free, v0) (PriorityQueue.put rest (next_free, v0))).
  { unfold PriorityQueue.put. apply in_or_app. right. left. reflexivity. }
  rewrite Forall_forall in Hleast, Hl'.
  specialize (Hleast _ Hin1). specialize (Hl' _ Hin2). simpl in *.
  split; [apply Qle_antisym; assumption|]. split; [reflexivity|].
  rewrite <- Hp. exact Hp'.
Qed.

Lemma enter_booth_zero (vb : VotingBooths) (ref : nat) (v : Voter) (t : Q) :
  is_booth_available vb = true -> start_time v = Some t -> t == 0 ->
  enter_booth vb ref v = Raise start_time_error.
Proof.
  intros Ha Hs Ht. unfold enter_booth, py_assert. rewrite Ha, Hs. simpl.
  apply Qeq_bool_iff in Ht. rewrite Ht. reflexivity.
Qed.

Lemma enter_booth_Ok (vb : VotingBooths) (ref : nat) (v : Voter) (s : Q) :
  is_booth_available vb = true -> start_time v = Some s -> ~ s == 0 ->
  enter_booth vb ref v
  = Ok (mkVotingBooths (_num_booths vb)
          (PriorityQueue.put (_q vb) (s + voting_duration v, ref))).
Proof.
  intros Ha Hs Hz. unfold enter_booth, py_assert. rewrite Ha, Hs. simpl.
  apply py_truthy_Some in Hz. simpl in Hz. rewrite Hz. reflexivity.
Qed.

Lemma enter_booth_inv (vb vb' : VotingBooths) (ref : nat) (v : Voter) :
  enter_booth vb ref v = Ok vb' ->
  is_booth_available vb = true /\
  exists s : Q,
    start_time v = Some s /\ ~ s == 0 /\
    vb' = mkVotingBooths (_num_booths vb)
            (PriorityQueue.put (_q vb) (s + voting_duration v, ref)).
Proof.
  unfold enter_booth, py_assert.
  destruct (is_booth_available vb); simpl; [|discriminate].
  destruct (start_time v) as [s|] eqn:Hs; simpl; [|discriminate].
  destruct (Qeq_bool s 0) eqn:Hz; simpl; [discriminate|].
  intros H. inversion H; subst. split; [reflexivity|].
  exists s. repeat split. apply Qeq_bool_neq. exact Hz.
Qed.

Lemma available_after_exit (vb : VotingBooths) (e : PriorityQueue.entry)
    (rest : PriorityQueue.t) :
  within_capacity vb -> Permutation (_q vb) (e :: rest) ->
  is_booth_available (mkVotingBooths (_num_booths vb) rest) = true.
Proof.
  unfold within_capacity, is_booth_available, PriorityQueue.qsize.
  intros Hcap Hperm. apply Permutation_length in Hperm. simpl in *.
  apply Z.ltb_lt. lia.
Qed.

Lemma enter_booth_within_capacity (vb vb' : VotingBooths) (ref : nat)
    (v : Voter) :
  enter_booth vb ref v = Ok vb' ->
  within_capacity vb' /\ _num_booths vb' = _num_booths vb.
Proof.
  unfold enter_booth, py_assert. intros H.
  destruct (is_booth_available vb) eqn:Ha; simpl in H; [|discriminate].
  destruct (py_truthy (start_time v)); simpl in H; [|discriminate].
  destruct (py_add (start_time v) (voting_duration v)); simpl in H;
    [|discriminate].
  inversion H; subst. simpl. split; [|reflexivity].
  unfold within_capacity, is_booth_available, PriorityQueue.qsize,
    PriorityQueue.put in *.
  simpl. apply Z.ltb_lt in Ha. rewrite length_app. simpl. lia.
Qed.

(** ** One step of the loop *)

Ltac bind_cases H :=
  repeat match type of H with
  | bind ?c _ = Ok _ =>
      let E := fresh "E" in
      destruct c as [?|?] eqn:E; simpl in H; [|discriminate H]
  | match ?p with pair _ _ => _ end = Ok _ => destruct p
  end.

Lemma process_voter_zero (thr : Q) (vb : VotingBooths) (ref : nat) (v : Voter) :
  is_booth_available vb = true -> arrival_time v == 0 ->
  process_voter thr vb ref v = Raise start_time_error.
Proof.
  intros Ha Hz. unfold process_voter. rewrite Ha. simpl.
  rewrite (enter_booth_zero vb ref _ (arrival_time v)); auto.
Qed.

Lemma process_voter_processed (thr : Q) (vb vb' : VotingBooths) (ref : nat)
    (v v' : Voter) :
  process_voter thr vb ref v = Ok (v', vb') -> processed v v'.
Proof.
  unfold process_voter. intros H.
  destruct (is_booth_available vb).
  - simpl in H. bind_cases H. inversion H; subst.
    apply (processed_admitted v (arrival_time v)). apply Qle_refl.
  - destruct (time_next_free vb) as [[next_avail vb1]|]; simpl in H;
      [|discriminate].
    destruct (py_gt (arrival_time v) next_avail) eqn:G.
    + bind_cases H. simpl in H. bind_cases H. inversion H; subst.
      apply (processed_admitted v (arrival_time v)). apply Qle_refl.
    + apply py_gt_false in G.
      destruct (py_gt (next_avail - arrival_time v) thr && is_impatient v).
      * inversion H; subst. constructor.
      * bind_cases H. simpl in H. bind_cases H. inversion H; subst.
        apply (processed_admitted v next_avail). exact G.
Qed.

(** The capacity invariant of the spec is kept by every step. *)
Lemma process_voter_within_capacity (thr : Q) (vb vb' : VotingBooths)
    (ref : nat) (v v' : Voter) :
  within_capacity vb -> process_voter thr vb ref v = Ok (v', vb') ->
  within_capacity vb' /\ _num_booths vb' = _num_booths vb.
Proof.
  unfold process_voter. intros Hcap H.
  destruct (is_booth_available vb).
  - simpl in H. bind_cases H. inversion H; subst.
    eapply enter_booth_within_capacity; eassumption.
  - destruct (time_next_free vb) as [[next_avail vb1]|] eqn:Hpeek;
      simpl in H; [|discriminate].
    destruct (time_next_free_Permutation _ _ _ Hpeek) as [Hn Hp].
    assert (Hadm : forall x vb2 vt vb3,
               exit_booth vb1 = Ok (x, vb2) ->
               enter_booth vb2 ref vt = Ok vb3 ->
               within_capacity vb3 /\ _num_booths vb3 = _num_booths vb).
    { intros [w dt] vb2 vt vb3 Hexit E.
      destruct (exit_after_time_next_free _ _ _ _ _ _ Hpeek Hexit)
        as (_ & Hn2 & _).
      apply enter_booth_within_capacity in E as [Hc He].
      split; [exact Hc|congruence]. }
    destruct (py_gt (arrival_time v) next_avail).
    + destruct (exit_booth vb1) as [[x vb2]|] eqn:Hexit; simpl in H;
        [|discriminate].
      destruct (enter_booth vb2 ref _) as [vb3|] eqn:E; simpl in H;
        [|discriminate].
      inversion H; subst. eapply Hadm; [reflexivity|exact E].
    + destruct (py_gt (next_avail - arrival_time v) thr && is_impatient v).
      * inversion H; subst. split; [|exact Hn].
        unfold within_capacity, PriorityQueue.qsize in *.
        rewrite Hn, (Permutation_length Hp). exact Hcap.
      * destruct (exit_booth vb1) as [[x vb2]|] eqn:Hexit; simpl in H;
          [|discriminate].
        destruct (enter_booth vb2 ref _) as [vb3|] eqn:E; simpl in H;
          [|discriminate].
        inversion H; subst. eapply Hadm; [reflexivity|exact E].
Qed.

(** A step that admits the voter under a threshold does the same under any
    larger threshold. *)
Lemma process_voter_threshold (t1 t2 : Q) (vb vb' : VotingBooths) (ref : nat)
    (v v' : Voter) :
  t1 <= t2 -> new_voter v ->
  process_voter t1 vb ref v = Ok (v', vb') -> has_voted v' = true ->
  process_voter t2 vb ref v = Ok (v', vb').
Proof.
  intros Hle (_ & _ & Hv). unfold process_voter.
  destruct (is_booth_available vb); [tauto|].
  destruct (time_next_free vb) as [[next_avail vb1]|]; simpl; [|tauto].
  destruct (py_gt (arrival_time v) next_avail); [tauto|].
  destruct (is_impatient v); rewrite ?andb_false_r; [|tauto].
  rewrite !andb_true_r.
  destruct (py_gt (next_avail - arrival_time v) t1) eqn:G1.
  - intros H Hvoted. inversion H; subst. congruence.
  - apply py_gt_false in G1.
    assert (G2 : py_gt (next_avail - arrival_time v) t2 = false).
    { apply py_gt_false. eapply Qle_trans; eassumption. }
    rewrite G2. tauto.
Qed.

(** ** The loop *)

Lemma simulate_loop_processed (thr : Q) (voter_list : list Voter) :
  forall (vb vb' : VotingBooths) (ref : nat) (confirmed out : list Voter),
    simulate_loop thr vb ref voter_list confirmed = Ok (out, vb') ->
    exists outcomes,
      out = confirmed ++ outcomes /\ Forall2 processed voter_list outcomes.
Proof.
  induction voter_list as [|v rest IH]; simpl; intros vb vb' ref confirmed out H.
  - inversion H; subst. exists []. rewrite app_nil_r. split; constructor.
  - destruct (process_voter thr vb ref v) as [[v1 vb1]|] eqn:E; simpl in H;
      [|discriminate].
    apply IH in H as (outcomes & -> & HF).
    apply process_voter_processed in E.
    exists (v1 :: outcomes). rewrite <- app_assoc. simpl.
    split; [reflexivity|]. constructor; assumption.
Qed.

Lemma simulate_loop_threshold (t1 t2 : Q) (voter_list : list Voter) :
  t1 <= t2 ->
  forall (vb vb' : VotingBooths) (ref : nat) (confirmed out : list Voter),
    Forall new_voter voter_list ->
    simulate_loop t1 vb ref voter_list confirmed = Ok (out, vb') ->
    forallb has_voted out = true ->
    simulate_loop t2 vb ref voter_list confirmed = Ok (out, vb').
Proof.
  intros Hle.
  induction voter_list as [|v rest IH]; simpl;
    intros vb vb' ref confirmed out HF H Hall.
  - exact H.
  - inversion HF as [|? ? Hv HF']; subst.
    destruct (process_voter t1 vb ref v) as [[v1 vb1]|] eqn:E; simpl in H;
      [|discriminate].
    assert (Hvoted : has_voted v1 = true).
    { apply simulate_loop_processed in H as (outs & -> & _).
      rewrite !forallb_app in Hall. simpl in Hall.
      apply andb_prop in Hall as [Hall _].
      apply andb_prop in Hall as [_ Hall].
      apply andb_prop in Hall as [Hall _]. exact Hall. }
    rewrite (process_voter_threshold t1 t2 _ _ _ _ _ Hle Hv E Hvoted). simpl.
    apply IH; assumption.
Qed.

Lemma processed_consistent (v v' : Voter) :
  new_voter v -> processed v v' -> outcome_consistent v'.
Proof.
  intros (Hs & Hd & Hv) [|s Hle]; unfold outcome_consistent.
  - rewrite Hv. split; assumption.
  - simpl. exists s. repeat split. exact Hle.
Qed.


(** ** The arrival generator *)

Section Generator.

Context {R : PyRandom}.

Lemma generate_loop_arrivals (self : Precinct) (n : nat) :
  forall (s : rng) (t : Q) (voter_list : list Voter),
    generate_loop self n s t voter_list
    = voter_list ++ arrivals_from self n s t.
Proof.
  induction n as [|n IH]; simpl; intros s t voter_list.
  - rewrite app_nil_r. reflexivity.
  - destruct (gen_voter_parameters _ _ _ s) as [[[gap d] i] s'].
    fold (closing_time self).
    destruct (py_gt (t + gap) (closing_time self)).
    + rewrite app_nil_r. reflexivity.
    + rewrite IH, <- app_assoc. reflexivity.
Qed.

Lemma candidates_length (self : Precinct) (n : nat) :
  forall s : rng, List.length (candidates self n s) = n.
Proof.
  induction n as [|n IH]; simpl; intros s; [reflexivity|].
  destruct (gen_voter_parameters _ _ _ s) as [c s']. simpl.
  rewrite IH. reflexivity.
Qed.

Lemma arrivals_from_new (self : Precinct) (n : nat) :
  forall (s : rng) (t : Q), Forall new_voter (arrivals_from self n s t).
Proof.
  induction n as [|n IH]; simpl; intros s t; [constructor|].
  destruct (gen_voter_parameters _ _ _ s) as [[[gap d] i] s'].
  destruct (py_gt _ _); constructor; [repeat split|apply IH].
Qed.

Lemma generate_voter_list_new (self : Precinct) (seed : Z) :
  Forall new_voter (generate_voter_list self seed).
Proof.
  unfold generate_voter_list. rewrite generate_loop_arrivals. simpl.
  apply arrivals_from_new.
Qed.

Lemma arrivals_from_spec (self : Precinct) (n : nat) :
  forall (s : rng) (t : Q),
    let cands := candidates self n s in
    let times := running_sums t (map gap_of cands) in
    let voters := arrivals_from self n s t in
    let m := List.length voters in
    voters = map candidate_voter (firstn m (combine times cands)) /\
    (m <= n)%nat /\
    Forall (fun v => arrival_time v <= closing_time self) voters /\
    (m = n \/
     exists late : Q, nth_error times m = Some late /\
                      closing_time self < late).
Proof.
  induction n as [|n IH]; simpl; intros s t.
  - repeat split; auto.
  - destruct (gen_voter_parameters _ _ _ s) as [[[gap d] i] s'] eqn:E.
    simpl. destruct (py_gt (t + gap) (closing_time self)) eqn:G; simpl.
    + apply py_gt_true in G. repeat split; [lia|constructor|].
      right. exists (t + gap). split; [reflexivity|exact G].
    + apply py_gt_false in G.
      destruct (IH s' (t + gap)) as (Heq & Hle & Hall & Hstop).
      repeat split.
      * unfold candidate_voter at 1. simpl. f_equal. exact Heq.
      * lia.
      * constructor; [exact G|exact Hall].
      * destruct Hstop as [Hm|Hlate]; [left; lia|right; exact Hlate].
Qed.

(** C6. The generator produces a finite sequence of voters whose arrival
    times are the running sums of the gaps drawn, one voter per candidate
    in the order drawn. It stops when [num_voters] voters have been produced
    or at the first candidate whose cumulative arrival time exceeds
    [hours_open * 60]; that candidate is not in the sequence. For each
    candidate the gap is drawn first, the voting duration second and the
    impatience flag third. *)
Theorem generate_voter_list_spec (self : Precinct) (seed : Z) :
  let cands :=
    candidates self (Z.to_nat (num_voters self)) (seed_rng seed) in
  let times := running_sums 0 (map gap_of cands) in
  let voters := generate_voter_list self seed in
  let m := List.length voters in
  voters = map candidate_voter (firstn m (combine times cands)) /\
  List.length cands = Z.to_nat (num_voters self) /\
  (m <= Z.to_nat (num_voters self))%nat /\
  Forall (fun v => arrival_time v <= inject_Z (hours_open self * 60))
         voters /\
  (m = Z.to_nat (num_voters self) \/
   exists late : Q, nth_error times m = Some late /\
                    inject_Z (hours_open self * 60) < late) /\
  (forall (a d p : Q) (s : rng),
      gen_voter_parameters a d p s
      = (let '(gap, s1) := expovariate a s in
         let '(voting_duration, s2) := expovariate d s1 in
         let '(is_impatient, s3) := bernoulli p s2 in
         ((gap, voting_duration, is_impatient), s3))).
Proof.
  unfold generate_voter_list. rewrite generate_loop_arrivals. simpl.
  destruct (arrivals_from_spec self (Z.to_nat (num_voters self))
              (seed_rng seed) 0) as (Heq & Hle & Hall & Hstop).
  repeat split; try assumption.
  apply candidates_length.
Qed.

End Generator.

(** ** Failing assertions *)

Section Assertions.

Context {R : PyRandom}.

(** C9. Admitting a voter whose start time has been set to exactly 0
    fails: [enter_booth] tests the truth value of [v.start_time], so on a
    bank with a free booth a voter whose start time is 0 raises
    AssertionError "Voter's start time must be set." although the start
    time is assigned, and [simulate] raises it on every arrival sequence
    whose first voter arrives at time 0. *)
Theorem start_time_zero_asserts (self : Precinct) (seed : Z)
    (voting_booths : VotingBooths) (impatience_threshold : Q) :
  is_booth_available voting_booths = true ->
  (forall (ref : nat) (v : Voter) (t : Q),
      start_time v = Some t -> t == 0 ->
      enter_booth voting_booths ref v = Raise start_time_error) /\
  (forall (v : Voter) (rest : list Voter),
      generate_voter_list self seed = v :: rest ->
      arrival_time v == 0 ->
      simulate self seed voting_booths impatience_threshold
      = Raise start_time_error).
Proof.
  intros Ha. split.
  - intros ref v t Hs Ht. apply enter_booth_zero with t; assumption.
  - intros v rest Hg Hz. unfold simulate. rewrite Hg. simpl.
    rewrite process_voter_zero; auto.
Qed.

(** C10. With a bank of capacity 0 no booth is ever available, so the loop
    asks an empty bank for its next free time: for every seed and precinct
    whose arrival sequence is not empty, [simulate] raises AssertionError
    "No booths in use" and returns no outcome list. *)
Theorem zero_booths_asserts (self : Precinct) (seed : Z)
    (impatience_threshold : Q) :
  generate_voter_list self seed <> [] ->
  is_booth_available (VotingBooths_init 0) = false /\
  is_some_booth_occupied (VotingBooths_init 0) = false /\
  time_next_free (VotingBooths_init 0) = Raise no_booths_error /\
  simulate self seed (VotingBooths_init 0) impatience_threshold
  = Raise no_booths_error.
Proof.
  intros Hne. repeat split.
  unfold simulate.
  destruct (generate_voter_list self seed) as [|v rest]; [congruence|].
  reflexivity.
Qed.

End Assertions.

(** C1. On the scenario of the spec the first voter is admitted with start
    time 0 and [enter_booth] raises: neither threshold gives an outcome
    list, so the second voter gets no start time 10 and no departure
    time 14. *)
Theorem scenario_raises (impatient1 impatient2 : bool) :
  simulate_loop 100 (VotingBooths_init 1) 0 (scenario impatient1 impatient2) []
  = Raise start_time_error /\
  simulate_loop 3 (VotingBooths_init 1) 0 (scenario impatient1 true) []
  = Raise start_time_error /\
  @generate_voter_list scenario_random scenario_precinct 0
  = scenario false true /\
  @simulate scenario_random scenario_precinct 0 (VotingBooths_init 1) 100
  = Raise start_time_error /\
  @simulate scenario_random scenario_precinct 0 (VotingBooths_init 1) 3
  = Raise start_time_error.
Proof. repeat split. Qed.

(** The same scenario one minute later runs as the spec describes it. *)
Example scenario_one_minute_later :
  simulate_loop 100 (VotingBooths_init 1) 0
                [Voter_init 1 10 false; Voter_init 6 4 true] []
  = Ok ([mkVoter 1 10 (Some 1) (Some 11) true false;
         mkVoter 6 4 (Some 11) (Some 15) true true],
        mkVotingBooths 1 [(15, 1%nat)]) /\
  simulate_loop 3 (VotingBooths_init 1) 0
                [Voter_init 1 10 false; Voter_init 6 4 true] []
  = Ok ([mkVoter 1 10 (Some 1) (Some 11) true false;
         mkVoter 6 4 None None false true],
        mkVotingBooths 1 [(11, 0%nat)]).
Proof. split; reflexivity. Qed.

Lemma start_time_zero_asserts_witness :
  @simulate scenario_random scenario_precinct 0 (VotingBooths_init 1) 100
  = Raise start_time_error.
Proof.
  apply (proj2 (@start_time_zero_asserts scenario_random scenario_precinct 0
                  (VotingBooths_init 1) 100 eq_refl)
               (Voter_init (0 + 0) 10 false)
               [Voter_init (0 + 0 + 5) 4 true]);
    reflexivity.
Defined.

Lemma zero_booths_asserts_witness :
  @simulate scenario_random scenario_precinct 0 (VotingBooths_init 0) 100
  = Raise no_booths_error.
Proof.
  apply (@zero_booths_asserts scenario_random scenario_precinct 0 100).
  discriminate.
Defined.

(** ** Outcome lists *)

Section Outcomes.

Context {R : PyRandom}.

(** C2. Every voter of an outcome list of [simulate] is consistent: if it
    has voted, its start and departure times are set, the departure time
    is the start time plus the voting duration and the start time is not
    before the arrival time; if it has not voted, both times are unset.
    This holds for every seed, precinct, bank of booths and threshold. *)
Theorem simulate_outcome_consistent (self : Precinct) (seed : Z)
    (voting_booths booths_after : VotingBooths) (impatience_threshold : Q)
    (outcomes : list Voter) :
  simulate self seed voting_booths impatience_threshold
  = Ok (outcomes, booths_after) ->
  Forall outcome_consistent outcomes.
Proof.
  unfold simulate. intros H.
  apply simulate_loop_processed in H as (out & -> & HF). simpl.
  assert (Hnew := generate_voter_list_new self seed).
  induction HF as [|v v' l l' Hp HF IH]; constructor.
  - apply (processed_consistent v); [|exact Hp].
    inversion Hnew; assumption.
  - apply IH. inversion Hnew; assumption.
Qed.


(** C8, as amended. For a fixed seed, precinct and bank of booths and
    thresholds [t1 <= t2]: if every voter votes under [t1], the run under
    [t2] returns the same outcome list, so every voter votes under [t2]
    and the number of voters that voted is the same. *)
Theorem all_voted_threshold_monotone (self : Precinct) (seed : Z)
    (voting_booths booths_after : VotingBooths) (t1 t2 : Q)
    (outcomes : list Voter) :
  t1 <= t2 ->
  simulate self seed voting_booths t1 = Ok (outcomes, booths_after) ->
  all_voted outcomes = true ->
  simulate self seed voting_booths t2 = Ok (outcomes, booths_after) /\
  count_voted outcomes = List.length (generate_voter_list self seed).
Proof.
  unfold simulate, all_voted. intros Hle H Hall. split.
  - apply (simulate_loop_threshold t1 t2); try assumption.
    apply generate_voter_list_new.
  - apply simulate_loop_processed in H as (outs & -> & HF). simpl in *.
    rewrite (Forall2_length HF). unfold count_voted.
    clear HF. induction outs as [|v outs IH]; simpl in *; [reflexivity|].
    apply andb_prop in Hall as [Hv Hall]. rewrite Hv. simpl.
    rewrite IH; auto.
Qed.

End Outcomes.

(** C8, as stated, fails. With one booth the crowd has three voters voting
    under threshold 5 and two under threshold 9: under 9 the second voter
    stays and holds the booth until time 111, and the two voters behind it
    leave. *)
Lemma threshold_monotonicity_fails :
  5 <= 9 /\
  exists (out5 out9 : list Voter) (vb5 vb9 : VotingBooths),
    @simulate crowd_random crowd_precinct 0 (VotingBooths_init 1) 5
    = Ok (out5, vb5) /\
    @simulate crowd_random crowd_precinct 0 (VotingBooths_init 1) 9
    = Ok (out9, vb9) /\
    count_voted out5 = 3%nat /\
    count_voted out9 = 2%nat /\
    ~ (count_voted out5 <= count_voted out9)%nat.
Proof.
  split; [unfold Qle; simpl; lia|].
  eexists _, _, _, _. split; [vm_compute; reflexivity|].
  split; [vm_compute; reflexivity|].
  split; [reflexivity|]. split; [reflexivity|].
  vm_compute. lia.
Qed.

Lemma all_voted_threshold_monotone_witness :
  exists (outcomes : list Voter) (booths_after : VotingBooths),
    @simulate crowd_random crowd_precinct 0 (VotingBooths_init 4) 9
    = Ok (outcomes, booths_after) /\
    count_voted outcomes = 4%nat.
Proof.
  eexists _, _.
  apply (@all_voted_threshold_monotone crowd_random crowd_precinct 0
           (VotingBooths_init 4) _ 5 9 _).
  - unfold Qle. simpl. lia.
  - vm_compute. reflexivity.
  - reflexivity.
Defined.

Lemma simulate_outcome_consistent_witness :
  Forall outcome_consistent
    [mkVoter (0 + 1) 10 (Some (0 + 1)) (Some (0 + 1 + 10)) true false;
     Voter_init (0 + 1 + 1) 100 true;
     mkVoter (0 + 1 + 1 + 6) 1 (Some (0 + 1 + 10)) (Some (0 + 1 + 10 + 1))
             true true;
     mkVoter (0 + 1 + 1 + 6 + 1) 1 (Some (0 + 1 + 10 + 1))
             (Some (0 + 1 + 10 + 1 + 1)) true true].
Proof.
  apply (@simulate_outcome_consistent crowd_random crowd_precinct 0
           (VotingBooths_init 1)
           (mkVotingBooths 1 [(0 + 1 + 10 + 1 + 1, 3%nat)]) 5).
  reflexivity.
Defined.


(** ** One step of the loop on a full bank *)

(** C3. When no booth is available and the arriving voter comes strictly
    after the bank's next free time, the step, when it returns, has removed
    exactly one occupant, one with the least departure time, has kept every
    other occupant whatever its departure time, and has admitted the
    arriving voter with its start time equal to its arrival time and
    [has_voted] set. *)
Theorem stale_occupant_evicted (impatience_threshold : Q)
    (voting_booths booths_peeked booths_after : VotingBooths) (ref : nat)
    (voter outcome : Voter) (next_free : Q) :
  is_booth_available voting_booths = false ->
  time_next_free voting_booths = Ok (next_free, booths_peeked) ->
  next_free < arrival_time voter ->
  process_voter impatience_threshold voting_booths ref voter
  = Ok (outcome, booths_after) ->
  outcome = admitted voter (arrival_time voter) /\
  start_time outcome = Some (arrival_time voter) /\
  has_voted outcome = true /\
  _num_booths booths_after = _num_booths voting_booths /\
  exists (evicted : PriorityQueue.entry) (others : PriorityQueue.t),
    Permutation (_q voting_booths) (evicted :: others) /\
    fst evicted == next_free /\
    Forall (fun e => fst evicted <= fst e) (_q voting_booths) /\
    Permutation (_q booths_after)
      ((arrival_time voter + voting_duration voter, ref) :: others).
Proof.
  intros Hna Hpeek Hlt Hstep.
  unfold process_voter in Hstep. rewrite Hna, Hpeek in Hstep. simpl in Hstep.
  apply py_gt_true in Hlt. rewrite Hlt in Hstep.
  destruct (exit_booth booths_peeked) as [[[w dt] vb2]|] eqn:Hexit;
    simpl in Hstep; [|discriminate].
  destruct (exit_after_time_next_free _ _ _ _ _ _ Hpeek Hexit)
    as (Hdt & Hn2 & Hperm).
  destruct (enter_booth vb2 ref _) as [vb3|] eqn:E; simpl in Hstep;
    [|discriminate].
  inversion Hstep; subst outcome booths_after.
  apply enter_booth_inv in E as (_ & s & Hs & _ & ->).
  simpl in Hs. inversion Hs; subst s. simpl.
  split; [reflexivity|]. split; [reflexivity|]. split; [reflexivity|].
  split; [exact Hn2|].
  exists (dt, w), (_q vb2).
  split; [exact Hperm|]. split; [exact Hdt|]. split.
  - apply time_next_free_Ok in Hpeek as (v0 & rest0 & Hget & _).
    apply PriorityQueueFacts.get_least in Hget. simpl in *.
    eapply Forall_impl; [|exact Hget]. simpl. intros e He.
    rewrite Hdt. exact He.
  - apply PriorityQueueFacts.put_Permutation.
Qed.

(** C4. When no booth is available, the arriving voter comes no later than
    the bank's next free time, the wait exceeds the threshold and the voter
    is impatient, the voter is appended to the outcome list as it was, with
    [has_voted] false and both times unset, and the bank holds the same
    occupants after the step as before: nobody is admitted or removed. *)
Theorem impatient_voter_leaves (impatience_threshold : Q)
    (voting_booths booths_peeked : VotingBooths) (ref : nat) (voter : Voter)
    (next_free : Q) (rest confirmed : list Voter) :
  new_voter voter ->
  is_booth_available voting_booths = false ->
  time_next_free voting_booths = Ok (next_free, booths_peeked) ->
  arrival_time voter <= next_free ->
  impatience_threshold < next_free - arrival_time voter ->
  is_impatient voter = true ->
  process_voter impatience_threshold voting_booths ref voter
  = Ok (voter, booths_peeked) /\
  simulate_loop impatience_threshold voting_booths ref (voter :: rest)
                confirmed
  = simulate_loop impatience_threshold booths_peeked (S ref) rest
                  (confirmed ++ [voter]) /\
  has_voted voter = false /\
  start_time voter = None /\
  departure_time voter = None /\
  _num_booths booths_peeked = _num_booths voting_booths /\
  Permutation (_q booths_peeked) (_q voting_booths).
Proof.
  intros (Hs & Hd & Hv) Hna Hpeek Hle Hwait Himp.
  assert (Hstep : process_voter impatience_threshold voting_booths ref voter
                  = Ok (voter, booths_peeked)).
  { unfold process_voter. rewrite Hna, Hpeek. simpl.
    apply py_gt_false in Hle. rewrite Hle.
    apply py_gt_true in Hwait. rewrite Hwait, Himp. reflexivity. }
  split; [exact Hstep|]. split.
  - simpl. rewrite Hstep. reflexivity.
  - repeat split; try assumption;
      apply (time_next_free_Permutation _ _ _ Hpeek).
Qed.

(** Two occupants have left by the time the voter arrives; one is removed
    and the other still holds its booth. *)
Example two_stale_occupants :
  process_voter 0 (mkVotingBooths 2 [(3, 0%nat); (4, 1%nat)]) 2
                (Voter_init 10 5 false)
  = Ok (mkVoter 10 5 (Some 10) (Some 15) true false,
        mkVotingBooths 2 [(4, 1%nat); (15, 2%nat)]).
Proof. reflexivity. Qed.

Lemma stale_occupant_evicted_witness :
  mkVoter 10 5 (Some 10) (Some 15) true false
  = admitted (Voter_init 10 5 false) 10 /\
  exists (evicted : PriorityQueue.entry) (others : PriorityQueue.t),
    Permutation [(3, 0%nat); (4, 1%nat)] (evicted :: others) /\
    fst evicted == 3 /\
    Forall (fun e => fst evicted <= fst e) [(3, 0%nat); (4, 1%nat)] /\
    Permutation [(4, 1%nat); (15, 2%nat)] ((10 + 5, 2%nat) :: others).
Proof.
  destruct (stale_occupant_evicted 0
              (mkVotingBooths 2 [(3, 0%nat); (4, 1%nat)])
              (mkVotingBooths 2 [(4, 1%nat); (3, 0%nat)])
              (mkVotingBooths 2 [(4, 1%nat); (15, 2%nat)])
              2 (Voter_init 10 5 false)
              (mkVoter 10 5 (Some 10) (Some 15) true false) 3)
    as (Hout & _ & _ & _ & Hbank).
  - reflexivity.
  - reflexivity.
  - unfold Qlt. simpl. lia.
  - reflexivity.
  - split; [exact Hout|exact Hbank].
Defined.

Lemma impatient_voter_leaves_witness :
  process_voter 3 (mkVotingBooths 1 [(11, 0%nat)]) 1 (Voter_init 6 4 true)
  = Ok (Voter_init 6 4 true, mkVotingBooths 1 [(11, 0%nat)]).
Proof.
  apply (impatient_voter_leaves 3 (mkVotingBooths 1 [(11, 0%nat)])
           (mkVotingBooths 1 [(11, 0%nat)]) 1 (Voter_init 6 4 true) 11 [] []).
  - repeat split.
  - reflexivity.
  - reflexivity.
  - unfold Qle. simpl. lia.
  - unfold Qlt. simpl. lia.
  - reflexivity.
Defined.

(** ** The search routines *)

Lemma py_sorted_insert_Permutation (x : Z) (l : list Z) :
  Permutation (py_sorted_insert x l) (x :: l).
Proof.
  induction l as [|y l IH]; simpl; [reflexivity|].
  destruct (x <=? y)%Z; [reflexivity|].
  rewrite IH. apply perm_swap.
Qed.

Lemma py_sorted_Permutation (l : list Z) : Permutation (py_sorted l) l.
Proof.
  induction l as [|x l IH]; simpl; [reflexivity|].
  rewrite py_sorted_insert_Permutation, IH. reflexivity.
Qed.

Lemma py_sorted_insert_Sorted (x : Z) (l : list Z) :
  Sorted Z.le l -> Sorted Z.le (py_sorted_insert x l).
Proof.
  induction l as [|y l IH]; simpl; intros HS.
  - repeat constructor.
  - destruct (x <=? y)%Z eqn:E.
    + apply Z.leb_le in E. constructor; [exact HS|constructor; exact E].
    + apply Z.leb_gt in E. inversion HS as [|? ? HS' Hhd]; subst.
      constructor; [apply IH; exact HS'|].
      destruct l as [|z l]; simpl.
      * constructor. lia.
      * inversion Hhd; subst. destruct (x <=? z)%Z; constructor; lia.
Qed.

Lemma py_sorted_Sorted (l : list Z) : Sorted Z.le (py_sorted l).
Proof.
  induction l as [|x l IH]; simpl; [constructor|].
  apply py_sorted_insert_Sorted. exact IH.
Qed.

Lemma py_sorted_length (l : list Z) :
  List.length (py_sorted l) = List.length l.
Proof. apply Permutation_length, py_sorted_Permutation. Qed.

(** On a list of [n > 0] values, indexing the sorted list at [n // 2]
    raises nothing and gives one of the values. *)
Lemma py_index_middle (value_list : list Z) (n : Z) :
  (0 < n)%Z -> Z.of_nat (List.length value_list) = n ->
  exists m : Z,
    py_index (py_sorted value_list) (n / 2) = Ok m /\
    nth_error (py_sorted value_list) (Z.to_nat (n / 2)) = Some m /\
    In m value_list.
Proof.
  intros Hpos Hlen. unfold py_index.
  destruct (nth_error (py_sorted value_list) (Z.to_nat (n / 2)))
    as [m|] eqn:E.
  - exists m. repeat split.
    apply (Permutation_in _ (py_sorted_Permutation value_list)).
    eapply nth_error_In. exact E.
  - exfalso. apply nth_error_None in E. rewrite py_sorted_length in E.
    assert (n / 2 < n)%Z by (apply Z.div_lt; lia).
    assert (0 <= n / 2)%Z by (apply Z.div_pos; lia).
    lia.
Qed.

Lemma for_trials_Ok (trial : nat -> option (result Z)) (value : nat -> Z)
    (range : list nat) :
  forall value_list : list Z,
    (forall i, In i range -> trial i = Some (Ok (value i))) ->
    for_trials trial range value_list
    = Some (Ok (value_list ++ map value range)).
Proof.
  induction range as [|i range IH]; simpl; intros value_list H.
  - rewrite app_nil_r. reflexivity.
  - rewrite (H i (or_introl eq_refl)).
    rewrite IH by (intros j Hj; apply H; right; exact Hj).
    rewrite <- app_assoc. reflexivity.
Qed.

Section Search.

Context {R : PyRandom}.

Lemma threshold_while_S (fuel : nat) (precinct : Precinct) (seed_i : Z)
    (num_booths : Z) (threshold : Z) :
  threshold_while (S fuel) precinct seed_i num_booths threshold
  = match simulate precinct seed_i (VotingBooths_init num_booths)
                   (inject_Z (threshold + 10)) with
    | Raise e => Some (Raise e)
    | Ok (outcomes, _) =>
        if all_voted outcomes then Some (Ok (threshold + 10)%Z)
        else threshold_while fuel precinct seed_i num_booths (threshold + 10)
    end.
Proof. reflexivity. Qed.

Lemma booths_while_S (fuel : nat) (precinct : Precinct) (seed_i : Z)
    (imp_threshold : Q) (num_booths : Z) :
  booths_while (S fuel) precinct seed_i imp_threshold num_booths
  = match simulate precinct seed_i (VotingBooths_init (num_booths + 1))
                   imp_threshold with
    | Raise e => Some (Raise e)
    | Ok (outcomes, _) =>
        if all_voted outcomes then Some (Ok (num_booths + 1)%Z)
        else booths_while fuel precinct seed_i imp_threshold (num_booths + 1)
    end.
Proof. reflexivity. Qed.

Lemma threshold_while_converges (precinct : Precinct) (seed_i : Z)
    (num_booths : Z) (k : nat) :
  threshold_converges precinct seed_i num_booths k ->
  forall (fuel i : nat),
    (i <= k)%nat -> (k - i < fuel)%nat ->
    threshold_while fuel precinct seed_i num_booths (-9 + 10 * Z.of_nat i)%Z
    = Some (Ok (threshold_at k)).
Proof.
  intros [Hk Hbefore]. induction fuel as [|fuel IH]; intros i Hik Hfuel;
    [lia|].
  rewrite threshold_while_S.
  replace (-9 + 10 * Z.of_nat i + 10)%Z with (threshold_at i)
    by (unfold threshold_at; lia).
  destruct (Nat.eq_dec i k) as [->|Hne].
  - destruct Hk as (out & vb & -> & ->). reflexivity.
  - destruct (Hbefore i) as (out & vb & -> & ->); [lia|].
    replace (threshold_at i) with (-9 + 10 * Z.of_nat (S i))%Z
      by (unfold threshold_at; lia).
    apply IH; lia.
Qed.

Lemma booths_while_converges (precinct : Precinct) (seed_i : Z)
    (imp_threshold : Q) (k : nat) :
  booths_converge precinct seed_i imp_threshold k ->
  forall (fuel i : nat),
    (i <= k)%nat -> (k - i < fuel)%nat ->
    booths_while fuel precinct seed_i imp_threshold (Z.of_nat i)
    = Some (Ok (booths_at k)).
Proof.
  intros [Hk Hbefore]. induction fuel as [|fuel IH]; intros i Hik Hfuel;
    [lia|].
  rewrite booths_while_S. fold (booths_at i).
  destruct (Nat.eq_dec i k) as [->|Hne].
  - destruct Hk as (out & vb & -> & ->). reflexivity.
  - destruct (Hbefore i) as (out & vb & -> & ->); [lia|].
    replace (booths_at i) with (Z.of_nat (S i))
      by (unfold booths_at; lia).
    apply IH; lia.
Qed.

(** C7. For every [num_trials > 0], when trial [i], run with seed
    [seed + i] and a new bank for every simulation, converges in iteration
    [k i] and the while loops are given more than [k i] iterations, both
    search routines return the element at index [num_trials // 2] of the
    sorted list of the values the trials converged to. The result is one of
    these values, not an average of two of them. *)
Theorem search_returns_median (fuel : nat) (seed : Z) (precinct : Precinct)
    (num_booths : Z) (imp_threshold : Q) (num_trials : Z) (k : nat -> nat) :
  (0 < num_trials)%Z ->
  let range := seq 0 (Z.to_nat num_trials) in
  ((forall i, (i < Z.to_nat num_trials)%nat ->
      threshold_converges precinct (seed + Z.of_nat i) num_booths (k i) /\
      (k i < fuel)%nat) ->
   let threshold_list := map (fun i => threshold_at (k i)) range in
   exists median : Z,
     find_impatience_threshold fuel seed precinct num_booths num_trials
     = Some (Ok median) /\
     nth_error (py_sorted threshold_list) (Z.to_nat (num_trials / 2))
     = Some median /\
     Sorted Z.le (py_sorted threshold_list) /\
     Permutation (py_sorted threshold_list) threshold_list /\
     In median threshold_list) /\
  ((forall i, (i < Z.to_nat num_trials)%nat ->
      booths_converge precinct (seed + Z.of_nat i) imp_threshold (k i) /\
      (k i < fuel)%nat) ->
   let num_booths_list := map (fun i => booths_at (k i)) range in
   exists median : Z,
     find_voting_booths_needed fuel seed precinct imp_threshold num_trials
     = Some (Ok median) /\
     nth_error (py_sorted num_booths_list) (Z.to_nat (num_trials / 2))
     = Some median /\
     Sorted Z.le (py_sorted num_booths_list) /\
     Permutation (py_sorted num_booths_list) num_booths_list /\
     In median num_booths_list).
Proof.
  intros Hpos range.
  assert (Hgt : (num_trials >? 0)%Z = true) by (apply Z.gtb_lt; lia).
  assert (Hlen : forall f : nat -> Z,
             Z.of_nat (List.length (map f range)) = num_trials).
  { intros f. unfold range. rewrite length_map, length_seq. lia. }
  split; intros Hconv; cbv zeta.
  - unfold find_impatience_threshold. rewrite Hgt. fold range.
    rewrite (for_trials_Ok _ (fun i => threshold_at (k i))).
    + simpl app. cbv zeta. rewrite py_sorted_length, Hlen.
      destruct (py_index_middle _ _ Hpos (Hlen (fun i => threshold_at (k i))))
        as (m & Hm & Hnth & Hin).
      exists m. rewrite Hm. repeat split; try assumption.
      * apply py_sorted_Sorted.
      * apply py_sorted_Permutation.
    + intros i Hi. apply in_seq in Hi.
      destruct (Hconv i) as [Hc Hf]; [lia|].
      apply (threshold_while_converges _ _ _ _ Hc fuel 0%nat); lia.
  - unfold find_voting_booths_needed. rewrite Hgt. fold range.
    rewrite (for_trials_Ok _ (fun i => booths_at (k i))).
    + simpl app. cbv zeta. rewrite Hlen.
      destruct (py_index_middle _ _ Hpos (Hlen (fun i => booths_at (k i))))
        as (m & Hm & Hnth & Hin).
      exists m. rewrite Hm. repeat split; try assumption.
      * apply py_sorted_Sorted.
      * apply py_sorted_Permutation.
    + intros i Hi. apply in_seq in Hi.
      destruct (Hconv i) as [Hc Hf]; [lia|].
      apply (booths_while_converges _ _ _ _ Hc fuel 0%nat); lia.
Qed.

End Search.

Ltac run_trial :=
  eexists _, _; split; vm_compute; reflexivity.

Lemma search_returns_median_witness :
  @find_impatience_threshold trials_random 5 0 trials_precinct 1 3
  = Some (Ok 11%Z) /\
  @find_voting_booths_needed trials_random 5 0 trials_precinct 5 3
  = Some (Ok 2%Z).
Proof.
  assert (H3 : (0 < 3)%Z) by lia.
  split.
  - destruct (proj1 (@search_returns_median trials_random 5 0 trials_precinct
                       1 5 3 (fun i => i) H3))
      as (median & Hfind & Hnth & _).
    + intros i Hi.
      destruct i as [|[|[|i]]]; [| | |simpl in Hi; lia];
        (split; [split; [run_trial|]|lia]);
        intros j Hj;
        repeat (destruct j as [|j]; [run_trial|]); lia.
    + vm_compute in Hnth. inversion Hnth; subst. exact Hfind.
  - destruct (proj2 (@search_returns_median trials_random 5 0 trials_precinct
                       1 5 3 (fun i => Nat.min i 1) H3))
      as (median & Hfind & Hnth & _).
    + intros i Hi.
      destruct i as [|[|[|i]]]; [| | |simpl in Hi; lia];
        (split; [split; [run_trial|]|simpl; lia]);
        intros j Hj; simpl in Hj;
        repeat (destruct j as [|j]; [run_trial|]); lia.
    + vm_compute in Hnth. inversion Hnth; subst. exact Hfind.
Defined.

(** With two trials that converge to 1 and 11 the result is 11, the element
    at index 1 of the sorted list, and not the mean 6. *)
Example two_trials_median :
  @find_impatience_threshold trials_random 5 0 trials_precinct 1 2
  = Some (Ok 11%Z).
Proof. reflexivity. Qed.

(** * Further properties of the booths *)

Lemma get_append_least (q : PriorityQueue.t) (x : PriorityQueue.entry) :
  Forall (fun e => fst x < fst e) q ->
  PriorityQueue.get (PriorityQueue.put q x) = Some (x, q).
Proof.
  unfold PriorityQueue.put. induction q as [|e q IH]; simpl; intros H.
  - reflexivity.
  - inversion H as [|? ? He Hq]; subst. rewrite (IH Hq).
    destruct (Qle_bool (fst e) (fst x)) eqn:L; [|reflexivity].
    apply Qle_bool_iff in L. exfalso. apply (Qlt_not_le _ _ He L).
Qed.

(** X1. When [enter_booth] returns, a booth was available, the voter's start
    time was set and not 0, and the bank has one more entry, keyed by the
    start time plus the voting duration, with the same number of booths. On
    a full bank it raises "All booths in use" whatever the voter; with a
    booth available and the start time unset or 0 it raises "Voter's start
    time must be set.". *)
Theorem enter_booth_spec (self : VotingBooths) (ref : nat) (v : Voter) :
  (forall after : VotingBooths,
      enter_booth self ref v = Ok after ->
      is_booth_available self = true /\
      _num_booths after = _num_booths self /\
      exists s : Q,
        start_time v = Some s /\ ~ s == 0 /\
        Permutation (_q after) ((s + voting_duration v, ref) :: _q self)) /\
  (is_booth_available self = false ->
   enter_booth self ref v = Raise all_booths_error) /\
  (is_booth_available self = true -> py_truthy (start_time v) = false ->
   enter_booth self ref v = Raise start_time_error).
Proof.
  split; [|split].
  - intros after H. apply enter_booth_inv in H as (Ha & s & Hs & Hz & ->).
    simpl. split; [exact Ha|]. split; [reflexivity|].
    exists s. split; [exact Hs|]. split; [exact Hz|].
    apply PriorityQueueFacts.put_Permutation.
  - intros Ha. unfold enter_booth, py_assert. rewrite Ha. reflexivity.
  - intros Ha Ht. unfold enter_booth, py_assert. rewrite Ha, Ht. reflexivity.
Qed.

(** X2. On a bank with no occupant [time_next_free] and [exit_booth] raise
    "No booths in use", whatever the number of booths. *)
Theorem empty_bank_asserts (self : VotingBooths) :
  _q self = [] ->
  time_next_free self = Raise no_booths_error /\
  exit_booth self = Raise no_booths_error.
Proof.
  intros H. unfold time_next_free, exit_booth, py_assert,
    is_some_booth_occupied. rewrite H. split; reflexivity.
Qed.

(** X3. When [exit_booth] returns, the bank had an occupant, exactly one
    entry was removed, the one returned, its departure time is least among
    the occupants, and the number of booths is unchanged. *)
Theorem exit_booth_least (self after : VotingBooths) (v : nat) (dt : Q) :
  exit_booth self = Ok ((v, dt), after) ->
  _q self <> [] /\
  _num_booths after = _num_booths self /\
  Permutation (_q self) ((dt, v) :: _q after) /\
  Forall (fun e => dt <= fst e) (_q self).
Proof.
  unfold exit_booth, py_assert. intros H.
  destruct (is_some_booth_occupied self) eqn:Hocc; simpl in H;
    [|discriminate].
  apply occupied_iff in Hocc.
  destruct (PriorityQueue.get (_q self)) as [[[dt0 v0] rest]|] eqn:G;
    [|discriminate].
  inversion H; subst. simpl. split; [exact Hocc|]. split; [reflexivity|].
  split.
  - apply PriorityQueueFacts.get_Permutation. exact G.
  - apply (PriorityQueueFacts.get_least _ _ _ G).
Qed.

(** X4. [time_next_free] is a peek: when it returns, the time is the least
    departure time of the occupants, the one [exit_booth] returns if it is
    called instead, and the bank is left with the same occupants, the same
    number of booths and the same availability. *)
Theorem time_next_free_peek (self after : VotingBooths) (dt : Q) :
  time_next_free self = Ok (dt, after) ->
  Permutation (_q after) (_q self) /\
  _num_booths after = _num_booths self /\
  is_booth_available after = is_booth_available self /\
  (exists v : nat, In (dt, v) (_q self)) /\
  Forall (fun e => dt <= fst e) (_q self) /\
  (forall (v : nat) (dt' : Q) (exited : VotingBooths),
      exit_booth self = Ok ((v, dt'), exited) -> dt' = dt).
Proof.
  intros H.
  destruct (time_next_free_Permutation _ _ _ H) as [Hn Hp].
  apply time_next_free_Ok in H as (v0 & rest & Hget & ->).
  split; [exact Hp|]. split; [exact Hn|]. split.
  { unfold is_booth_available, PriorityQueue.qsize.
    rewrite (Permutation_length Hp), Hn. reflexivity. }
  split.
  { exists v0. eapply Permutation_in.
    - symmetry. apply PriorityQueueFacts.get_Permutation. exact Hget.
    - left. reflexivity. }
  split; [apply (PriorityQueueFacts.get_least _ _ _ Hget)|].
  intros v dt' exited Hexit. unfold exit_booth, py_assert in Hexit.
  destruct (is_some_booth_occupied self); simpl in Hexit; [|discriminate].
  rewrite Hget in Hexit. inversion Hexit. reflexivity.
Qed.

(** X5. Round trip: a voter that enters with a departure time strictly before
    those of all occupants is the one that [exit_booth] returns next, with
    that departure time, and the bank is back as it was. *)
Theorem enter_exit_round_trip (self : VotingBooths) (ref : nat) (v : Voter)
    (s : Q) :
  is_booth_available self = true ->
  start_time v = Some s -> ~ s == 0 ->
  Forall (fun e => s + voting_duration v < fst e) (_q self) ->
  exists entered : VotingBooths,
    enter_booth self ref v = Ok entered /\
    exit_booth entered = Ok ((ref, s + voting_duration v), self).
Proof.
  intros Ha Hs Hz Hleast.
  rewrite (enter_booth_Ok self ref v s Ha Hs Hz).
  eexists. split; [reflexivity|].
  unfold exit_booth, py_assert.
  match goal with
  | |- context [is_some_booth_occupied ?b] =>
      assert (Hocc : is_some_booth_occupied b = true)
  end.
  { apply occupied_iff. simpl. unfold PriorityQueue.put.
    destruct (_q self); discriminate. }
  rewrite Hocc. simpl.
  rewrite (get_append_least (_q self) (s + voting_duration v, ref) Hleast).
  destruct self. reflexivity.
Qed.

Lemma empty_bank_asserts_witness :
  time_next_free (VotingBooths_init 3) = Raise no_booths_error /\
  exit_booth (VotingBooths_init 3) = Raise no_booths_error.
Proof. apply (empty_bank_asserts (VotingBooths_init 3)). reflexivity. Defined.

Lemma exit_booth_least_witness :
  Permutation [(7, 0%nat); (4, 1%nat)] ((4, 1%nat) :: [(7, 0%nat)]) /\
  Forall (fun e => 4 <= fst e) [(7, 0%nat); (4, 1%nat)].
Proof.
  apply (exit_booth_least (mkVotingBooths 2 [(7, 0%nat); (4, 1%nat)])
           (mkVotingBooths 2 [(7, 0%nat)]) 1 4).
  reflexivity.
Defined.

Lemma time_next_free_peek_witness :
  Permutation [(7, 0%nat); (4, 1%nat)] [(7, 0%nat); (4, 1%nat)] /\
  Forall (fun e => 4 <= fst e) [(7, 0%nat); (4, 1%nat)].
Proof.
  destruct (time_next_free_peek (mkVotingBooths 2 [(7, 0%nat); (4, 1%nat)])
              (mkVotingBooths 2 [(7, 0%nat); (4, 1%nat)]) 4)
    as (Hp & _ & _ & _ & Hleast & _).
  - reflexivity.
  - split; [exact Hp|exact Hleast].
Defined.

Lemma enter_exit_round_trip_witness :
  exists entered : VotingBooths,
    enter_booth (mkVotingBooths 2 [(9, 0%nat)]) 1
                (set_start_time (Voter_init 2 5 false) 2) = Ok entered /\
    exit_booth entered = Ok ((1%nat, 2 + 5), mkVotingBooths 2 [(9, 0%nat)]).
Proof.
  apply (enter_exit_round_trip (mkVotingBooths 2 [(9, 0%nat)]) 1
           (set_start_time (Voter_init 2 5 false) 2) 2).
  - reflexivity.
  - reflexivity.
  - intros C. discriminate C.
  - repeat constructor.
Defined.

(** * Further properties of the loop *)

Lemma simulate_loop_run_steps (thr : Q) (voter_list : list Voter) :
  forall (vb vb' : VotingBooths) (ref : nat) (confirmed out : list Voter),
    simulate_loop thr vb ref voter_list confirmed = Ok (out, vb') <->
    exists outs, out = confirmed ++ outs /\
                 run_steps thr vb ref voter_list outs vb'.
Proof.
  induction voter_list as [|v rest IH]; simpl; intros vb vb' ref confirmed out.
  - split.
    + intros H. inversion H; subst. exists []. rewrite app_nil_r.
      split; constructor.
    + intros (outs & -> & Hr). inversion Hr; subst.
      rewrite app_nil_r. reflexivity.
  - split.
    + destruct (process_voter thr vb ref v) as [[v1 vb1]|] eqn:E; simpl;
        [|discriminate].
      intros H. apply IH in H as (outs & -> & Hr).
      exists (v1 :: outs). rewrite <- app_assoc. split; [reflexivity|].
      econstructor; eassumption.
    + intros (outs & -> & Hr).
      inversion Hr as [|? vb1 ? ? ? v1 ? outs' E Hr']; subst.
      rewrite E. simpl. apply IH. exists outs'.
      rewrite <- app_assoc. split; [reflexivity|exact Hr'].
Qed.

(** The number of occupants after a step. *)
Lemma process_voter_qsize (thr : Q) (vb vb' : VotingBooths) (ref : nat)
    (v v' : Voter) :
  within_capacity vb -> new_voter v ->
  process_voter thr vb ref v = Ok (v', vb') ->
  PriorityQueue.qsize (_q vb')
  = Z.min (_num_booths vb)
          (PriorityQueue.qsize (_q vb) + (if has_voted v' then 1 else 0))%Z.
Proof.
  unfold process_voter. intros Hcap (_ & _ & Hv) H.
  unfold within_capacity in Hcap.
  destruct (is_booth_available vb) eqn:Ha.
  - simpl in H.
    destruct (enter_booth vb ref _) as [vb1|] eqn:E; simpl in H;
      [|discriminate].
    inversion H; subst. simpl.
    apply enter_booth_inv in E as (_ & s & _ & _ & ->). simpl.
    unfold is_booth_available in Ha. apply Z.ltb_lt in Ha.
    unfold PriorityQueue.qsize, PriorityQueue.put in *.
    rewrite length_app. simpl. lia.
  - unfold is_booth_available in Ha. apply Z.ltb_ge in Ha.
    destruct (time_next_free vb) as [[next_avail vb1]|] eqn:Hpeek;
      simpl in H; [|discriminate].
    destruct (time_next_free_Permutation _ _ _ Hpeek) as [Hn Hp].
    assert (Hadm : forall x vb2 vt vb3,
               exit_booth vb1 = Ok (x, vb2) ->
               enter_booth vb2 ref vt = Ok vb3 ->
               PriorityQueue.qsize (_q vb3)
               = Z.min (_num_booths vb) (PriorityQueue.qsize (_q vb) + 1)).
    { intros [w dt] vb2 vt vb3 Hexit E.
      destruct (exit_after_time_next_free _ _ _ _ _ _ Hpeek Hexit)
        as (_ & _ & Hperm).
      apply enter_booth_inv in E as (_ & s & _ & _ & ->). simpl.
      unfold PriorityQueue.qsize, PriorityQueue.put in *.
      rewrite (Permutation_length Hperm) in *.
      rewrite length_app. simpl List.length in *. lia. }
    destruct (py_gt (arrival_time v) next_avail).
    + destruct (exit_booth vb1) as [[x vb2]|] eqn:Hexit; simpl in H;
        [|discriminate].
      destruct (enter_booth vb2 ref _) as [vb3|] eqn:E; simpl in H;
        [|discriminate].
      inversion H; subst. simpl. eapply Hadm; [reflexivity|exact E].
    + destruct (py_gt (next_avail - arrival_time v) thr && is_impatient v).
      * inversion H; subst. rewrite Hv.
        unfold PriorityQueue.qsize in *. rewrite (Permutation_length Hp).
        lia.
      * destruct (exit_booth vb1) as [[x vb2]|] eqn:Hexit; simpl in H;
          [|discriminate].
        destruct (enter_booth vb2 ref _) as [vb3|] eqn:E; simpl in H;
          [|discriminate].
        inversion H; subst. simpl. eapply Hadm; [reflexivity|exact E].
Qed.

(** A voter that the loop leaves unvoted is impatient, and an impatient
    voter that votes has waited no longer than the threshold. *)
Lemma process_voter_patience (thr : Q) (vb vb' : VotingBooths) (ref : nat)
    (v v' : Voter) :
  new_voter v -> process_voter thr vb ref v = Ok (v', vb') ->
  (has_voted v' = false -> is_impatient v' = true) /\
  (0 <= thr -> has_voted v' = true -> is_impatient v' = true ->
   exists s : Q, start_time v' = Some s /\ s - arrival_time v' <= thr).
Proof.
  unfold process_voter. intros (_ & _ & Hv) H.
  assert (Hon : forall vb2,
             Ok (set_vote (set_departure_time
                             (set_start_time v (arrival_time v))
                             (arrival_time v + voting_duration v)) true, vb2)
             = Ok (v', vb') ->
             (has_voted v' = false -> is_impatient v' = true) /\
             (0 <= thr -> has_voted v' = true -> is_impatient v' = true ->
              exists s : Q, start_time v' = Some s /\
                            s - arrival_time v' <= thr)).
  { intros vb2 E. inversion E; subst. simpl. split; [discriminate|].
    intros Hthr _ _. exists (arrival_time v). split; [reflexivity|].
    setoid_replace (arrival_time v - arrival_time v) with 0 by ring.
    exact Hthr. }
  destruct (is_booth_available vb).
  - simpl in H.
    destruct (enter_booth vb ref _) as [vb1|]; simpl in H; [|discriminate].
    eapply Hon. exact H.
  - destruct (time_next_free vb) as [[next_avail vb1]|]; simpl in H;
      [|discriminate].
    destruct (py_gt (arrival_time v) next_avail).
    + destruct (exit_booth vb1) as [[x vb2]|]; simpl in H; [|discriminate].
      destruct (enter_booth vb2 ref _) as [vb3|]; simpl in H; [|discriminate].
      eapply Hon. exact H.
    + destruct (py_gt (next_avail - arrival_time v) thr) eqn:G;
        destruct (is_impatient v) eqn:Hi; simpl in H;
        try (inversion H; subst; split; [auto|congruence]);
        destruct (exit_booth vb1) as [[x vb2]|]; simpl in H;
        try discriminate;
        destruct (enter_booth vb2 ref _) as [vb3|]; simpl in H;
        try discriminate;
        inversion H; subst; simpl; split; try discriminate;
        intros _ _ Hi'; try congruence.
      exists next_avail. split; [reflexivity|].
      apply py_gt_false. exact G.
Qed.

Lemma run_steps_within_capacity (thr : Q) (vb vb' : VotingBooths) (ref : nat)
    (vs outs : list Voter) :
  run_steps thr vb ref vs outs vb' -> within_capacity vb ->
  within_capacity vb' /\ _num_booths vb' = _num_booths vb.
Proof.
  induction 1 as [|vb vb1 vb' ref v v' vs outs E Hr IH]; intros Hcap.
  - split; [exact Hcap|reflexivity].
  - destruct (process_voter_within_capacity _ _ _ _ _ _ Hcap E) as [Hc Hn].
    destruct (IH Hc) as [Hc' Hn']. split; [exact Hc'|congruence].
Qed.

Lemma run_steps_qsize (thr : Q) (vb vb' : VotingBooths) (ref : nat)
    (vs outs : list Voter) :
  run_steps thr vb ref vs outs vb' -> within_capacity vb ->
  Forall new_voter vs ->
  PriorityQueue.qsize (_q vb')
  = Z.min (_num_booths vb)
          (PriorityQueue.qsize (_q vb) + Z.of_nat (count_voted outs))%Z.
Proof.
  induction 1 as [vb ref|vb vb1 vb' ref v v' vs outs E Hr IH];
    intros Hcap Hnew.
  - unfold within_capacity in Hcap. unfold count_voted. simpl. lia.
  - inversion Hnew as [|? ? Hv Hnew']; subst.
    destruct (process_voter_within_capacity _ _ _ _ _ _ Hcap E) as [Hc Hn].
    rewrite (IH Hc Hnew'), Hn.
    rewrite (process_voter_qsize _ _ _ _ _ _ Hcap Hv E).
    unfold count_voted. simpl.
    destruct (has_voted v'); simpl List.length; lia.
Qed.

Lemma run_steps_patience (thr : Q) (vb vb' : VotingBooths) (ref : nat)
    (vs outs : list Voter) :
  run_steps thr vb ref vs outs vb' -> Forall new_voter vs ->
  Forall (fun v' =>
            (has_voted v' = false -> is_impatient v' = true) /\
            (0 <= thr -> has_voted v' = true -> is_impatient v' = true ->
             exists s : Q, start_time v' = Some s /\
                           s - arrival_time v' <= thr)) outs.
Proof.
  induction 1 as [|vb vb1 vb' ref v v' vs outs E Hr IH]; intros Hnew.
  - constructor.
  - inversion Hnew as [|? ? Hv Hnew']; subst. constructor.
    + eapply process_voter_patience; eassumption.
    + apply IH. exact Hnew'.
Qed.

(** A step on a bank with a free booth, when it returns. *)
Lemma process_voter_on_arrival (thr : Q) (vb vb' : VotingBooths) (ref : nat)
    (v v' : Voter) :
  is_booth_available vb = true ->
  process_voter thr vb ref v = Ok (v', vb') ->
  v' = admitted v (arrival_time v) /\
  vb' = mkVotingBooths (_num_booths vb)
          (PriorityQueue.put (_q vb)
             (arrival_time v + voting_duration v, ref)).
Proof.
  unfold process_voter. intros Ha H. rewrite Ha in H. simpl in H.
  destruct (enter_booth vb ref _) as [vb1|] eqn:E; simpl in H;
    [|discriminate].
  inversion H; subst. split; [reflexivity|].
  apply enter_booth_inv in E as (_ & s & Hs & _ & ->).
  simpl in Hs. inversion Hs; subst. reflexivity.
Qed.

(** With as many free booths as there are arrivals, every voter of a run
    that returns was admitted on arrival. *)
Lemma run_steps_enough_booths (thr : Q) (vb vb' : VotingBooths) (ref : nat)
    (vs outs : list Voter) :
  run_steps thr vb ref vs outs vb' ->
  (PriorityQueue.qsize (_q vb) + Z.of_nat (List.length vs)
   <= _num_booths vb)%Z ->
  outs = map (fun v => admitted v (arrival_time v)) vs.
Proof.
  induction 1 as [|vb vb1 vb' ref v v' vs outs E Hr IH]; intros Hroom.
  - reflexivity.
  - assert (Ha : is_booth_available vb = true).
    { unfold is_booth_available. apply Z.ltb_lt.
      simpl List.length in Hroom. lia. }
    destruct (process_voter_on_arrival _ _ _ _ _ _ Ha E) as [-> ->].
    simpl. f_equal. apply IH. simpl.
    unfold PriorityQueue.qsize, PriorityQueue.put in *.
    rewrite length_app. simpl List.length in *. lia.
Qed.

Section MoreOutcomes.

Context {R : PyRandom}.

(** X6. The capacity invariant: a bank that holds no more occupants than it has
    booths still does after [simulate], and its number of booths is
    unchanged. *)
Theorem simulate_within_capacity (self : Precinct) (seed : Z)
    (voting_booths booths_after : VotingBooths) (impatience_threshold : Q)
    (outcomes : list Voter) :
  within_capacity voting_booths ->
  simulate self seed voting_booths impatience_threshold
  = Ok (outcomes, booths_after) ->
  within_capacity booths_after /\
  _num_booths booths_after = _num_booths voting_booths.
Proof.
  unfold simulate. intros Hcap H.
  apply simulate_loop_run_steps in H as (outs & _ & Hr).
  eapply run_steps_within_capacity; eassumption.
Qed.

(** X7. Booths are never vacated, only handed over: after [simulate] on a new
    bank the number of occupants is the number of voters that voted, capped
    by the number of booths. *)
Theorem simulate_occupants (self : Precinct) (seed : Z) (num_booths : Z)
    (booths_after : VotingBooths) (impatience_threshold : Q)
    (outcomes : list Voter) :
  (0 <= num_booths)%Z ->
  simulate self seed (VotingBooths_init num_booths) impatience_threshold
  = Ok (outcomes, booths_after) ->
  PriorityQueue.qsize (_q booths_after)
  = Z.min num_booths (Z.of_nat (count_voted outcomes)).
Proof.
  unfold simulate. intros Hn H.
  apply simulate_loop_run_steps in H as (outs & -> & Hr). simpl.
  rewrite (run_steps_qsize _ _ _ _ _ _ Hr).
  - reflexivity.
  - unfold within_capacity, PriorityQueue.qsize. simpl. lia.
  - apply generate_voter_list_new.
Qed.

(** X8. Only impatient voters are turned away, and an impatient voter that
    votes has waited at most the threshold, when the threshold is not
    negative. *)
Theorem simulate_patience (self : Precinct) (seed : Z)
    (voting_booths booths_after : VotingBooths) (impatience_threshold : Q)
    (outcomes : list Voter) :
  simulate self seed voting_booths impatience_threshold
  = Ok (outcomes, booths_after) ->
  Forall (fun v => has_voted v = false -> is_impatient v = true) outcomes /\
  (0 <= impatience_threshold ->
   Forall (fun v => has_voted v = true -> is_impatient v = true ->
                    exists s : Q,
                      start_time v = Some s /\
                      s - arrival_time v <= impatience_threshold)
          outcomes).
Proof.
  unfold simulate. intros H.
  apply simulate_loop_run_steps in H as (outs & -> & Hr). simpl.
  assert (HF := run_steps_patience _ _ _ _ _ _ Hr
                  (generate_voter_list_new self seed)).
  split; [|intros Hthr]; eapply Forall_impl; try exact HF; simpl.
  - intros v [H1 _]. exact H1.
  - intros v [_ H2]. apply H2. exact Hthr.
Qed.

(** X9. With at least as many booths as arrivals, on a new bank, the list
    that [simulate] returns has every voter admitted on arrival, whatever
    the threshold: every voter has voted, with its start time equal to its
    arrival time and its departure time the arrival time plus the voting
    duration. *)
Theorem simulate_enough_booths (self : Precinct) (seed : Z) (num_booths : Z)
    (impatience_threshold : Q) (outcomes : list Voter)
    (booths_after : VotingBooths) :
  (Z.of_nat (List.length (generate_voter_list self seed)) <= num_booths)%Z ->
  simulate self seed (VotingBooths_init num_booths) impatience_threshold
  = Ok (outcomes, booths_after) ->
  outcomes = map (fun v => admitted v (arrival_time v))
                 (generate_voter_list self seed) /\
  all_voted outcomes = true.
Proof.
  intros Hroom H. unfold simulate in H.
  apply simulate_loop_run_steps in H as (outs & -> & Hr). simpl.
  apply run_steps_enough_booths in Hr; [|simpl; lia].
  split; [exact Hr|]. rewrite Hr.
  unfold all_voted. rewrite forallb_forall. intros w Hw.
  apply in_map_iff in Hw as (v & <- & _). reflexivity.
Qed.

End MoreOutcomes.

Lemma simulate_within_capacity_witness :
  exists booths_after : VotingBooths,
    within_capacity booths_after /\ _num_booths booths_after = 1%Z.
Proof.
  eexists.
  eapply (@simulate_within_capacity crowd_random crowd_precinct 0
           (VotingBooths_init 1) _ 5 _).
  - unfold within_capacity, PriorityQueue.qsize. simpl. lia.
  - vm_compute. reflexivity.
Defined.

Lemma simulate_occupants_witness :
  exists (outcomes : list Voter) (booths_after : VotingBooths),
    @simulate crowd_random crowd_precinct 0 (VotingBooths_init 2) 5
    = Ok (outcomes, booths_after) /\
    PriorityQueue.qsize (_q booths_after)
    = Z.min 2 (Z.of_nat (count_voted outcomes)).
Proof.
  eexists _, _. split; [vm_compute; reflexivity|].
  eapply (@simulate_occupants crowd_random crowd_precinct 0 2 _ 5 _).
  - lia.
  - vm_compute. reflexivity.
Defined.

Lemma simulate_patience_witness :
  exists (outcomes : list Voter) (booths_after : VotingBooths),
    @simulate crowd_random crowd_precinct 0 (VotingBooths_init 1) 5
    = Ok (outcomes, booths_after) /\
    Forall (fun v => has_voted v = false -> is_impatient v = true) outcomes.
Proof.
  eexists _, _. split; [vm_compute; reflexivity|].
  eapply (@simulate_patience crowd_random crowd_precinct 0
           (VotingBooths_init 1) _ 5 _).
  vm_compute. reflexivity.
Defined.

Lemma simulate_enough_booths_witness :
  exists outcomes : list Voter,
    outcomes = map (fun v => admitted v (arrival_time v))
                   (@generate_voter_list crowd_random crowd_precinct 0) /\
    all_voted outcomes = true.
Proof.
  eexists.
  eapply (@simulate_enough_booths crowd_random crowd_precinct 0 4 0 _ _).
  - vm_compute. discriminate.
  - vm_compute. reflexivity.
Defined.

(** X10. When no booth is available, the voter arrives no later than the
    bank's next free time, and the voter is patient or the wait is within
    the threshold, the voter waits: the step, when it returns, has removed
    one occupant with the least departure time and has admitted the voter
    with its start time equal to that departure time. *)
Theorem voter_waits (impatience_threshold : Q)
    (voting_booths booths_peeked booths_after : VotingBooths) (ref : nat)
    (voter outcome : Voter) (next_free : Q) :
  is_booth_available voting_booths = false ->
  time_next_free voting_booths = Ok (next_free, booths_peeked) ->
  arrival_time voter <= next_free ->
  is_impatient voter = false \/
  next_free - arrival_time voter <= impatience_threshold ->
  process_voter impatience_threshold voting_booths ref voter
  = Ok (outcome, booths_after) ->
  outcome = admitted voter next_free /\
  start_time outcome = Some next_free /\
  departure_time outcome = Some (next_free + voting_duration voter) /\
  has_voted outcome = true /\
  _num_booths booths_after = _num_booths voting_booths /\
  exists (evicted : PriorityQueue.entry) (others : PriorityQueue.t),
    Permutation (_q voting_booths) (evicted :: others) /\
    fst evicted == next_free /\
    Forall (fun e => fst evicted <= fst e) (_q voting_booths) /\
    Permutation (_q booths_after)
      ((next_free + voting_duration voter, ref) :: others).
Proof.
  intros Hna Hpeek Hle Hstay Hstep.
  unfold process_voter in Hstep. rewrite Hna, Hpeek in Hstep. simpl in Hstep.
  apply py_gt_false in Hle. rewrite Hle in Hstep.
  assert (Hcond : py_gt (next_free - arrival_time voter) impatience_threshold
                  && is_impatient voter = false).
  { destruct Hstay as [Hp|Hw].
    - rewrite Hp. apply andb_false_r.
    - apply py_gt_false in Hw. rewrite Hw. reflexivity. }
  rewrite Hcond in Hstep.
  destruct (exit_booth booths_peeked) as [[[w dt] vb2]|] eqn:Hexit;
    simpl in Hstep; [|discriminate].
  destruct (exit_after_time_next_free _ _ _ _ _ _ Hpeek Hexit)
    as (Hdt & Hn2 & Hperm).
  destruct (enter_booth vb2 ref _) as [vb3|] eqn:E; simpl in Hstep;
    [|discriminate].
  inversion Hstep; subst outcome booths_after.
  apply enter_booth_inv in E as (_ & s & Hs & _ & ->).
  simpl in Hs. inversion Hs; subst s. simpl.
  split; [reflexivity|]. split; [reflexivity|]. split; [reflexivity|].
  split; [reflexivity|]. split; [exact Hn2|].
  exists (dt, w), (_q vb2).
  split; [exact Hperm|]. split; [exact Hdt|]. split.
  - apply time_next_free_Ok in Hpeek as (v0 & rest0 & Hget & _).
    apply PriorityQueueFacts.get_least in Hget. simpl in *.
    eapply Forall_impl; [|exact Hget]. simpl. intros e He.
    rewrite Hdt. exact He.
  - apply PriorityQueueFacts.put_Permutation.
Qed.

Lemma voter_waits_witness :
  mkVoter 6 4 (Some 11) (Some 15) true true
  = admitted (Voter_init 6 4 true) 11 /\
  exists (evicted : PriorityQueue.entry) (others : PriorityQueue.t),
    Permutation [(11, 0%nat)] (evicted :: others) /\
    fst evicted == 11 /\
    Forall (fun e => fst evicted <= fst e) [(11, 0%nat)] /\
    Permutation [(15, 1%nat)] ((11 + 4, 1%nat) :: others).
Proof.
  destruct (voter_waits 100 (mkVotingBooths 1 [(11, 0%nat)])
              (mkVotingBooths 1 [(11, 0%nat)])
              (mkVotingBooths 1 [(15, 1%nat)]) 1 (Voter_init 6 4 true)
              (mkVoter 6 4 (Some 11) (Some 15) true true) 11)
    as (Hout & _ & _ & _ & _ & Hbank).
  - reflexivity.
  - reflexivity.
  - unfold Qle. simpl. lia.
  - right. unfold Qle. simpl. lia.
  - reflexivity.
  - split; [exact Hout|exact Hbank].
Defined.

(** * Further properties of the generator and of the search routines *)

Section MoreGenerator.

Context {R : PyRandom}.

Lemma candidates_S (self : Precinct) (n : nat) (s : rng) :
  candidates self (S n) s
  = (let '(c, s') :=
       gen_voter_parameters (arrival_rate self) (voting_duration_rate self)
                            (impatience_prob self) s in
     c :: candidates self n s').
Proof. reflexivity. Qed.

Lemma arrivals_from_ordered (self : Precinct) (n : nat) :
  forall (s : rng) (t : Q),
    Forall (fun c => 0 <= gap_of c) (candidates self n s) ->
    Forall (fun v => t <= arrival_time v) (arrivals_from self n s t) /\
    time_ordered (arrivals_from self n s t).
Proof.
  induction n as [|n IH]; intros s t Hgaps.
  - split; constructor.
  - rewrite candidates_S in Hgaps. simpl.
    destruct (gen_voter_parameters _ _ _ s) as [[[gap d] i] s'].
    inversion Hgaps as [|? ? Hgap Hgaps']; subst.
    unfold gap_of in Hgap. simpl in Hgap.
    destruct (py_gt (t + gap) (closing_time self)).
    + split; constructor.
    + destruct (IH s' (t + gap) Hgaps') as [Hfrom Hsorted].
      assert (Hstep : t <= t + gap).
      { setoid_replace t with (t + 0) at 1 by ring.
        apply Qplus_le_r. exact Hgap. }
      split.
      * constructor; [exact Hstep|].
        eapply Forall_impl; [|exact Hfrom]. simpl. intros v Hv.
        eapply Qle_trans; eassumption.
      * constructor; [exact Hsorted|exact Hfrom].
Qed.

(** X11. When the gaps drawn are not negative, the generated sequence is ordered
    by arrival time and no voter arrives before time 0. *)
Theorem generate_voter_list_ordered (self : Precinct) (seed : Z) :
  Forall (fun c => 0 <= gap_of c)
         (candidates self (Z.to_nat (num_voters self)) (seed_rng seed)) ->
  time_ordered (generate_voter_list self seed) /\
  Forall (fun v => 0 <= arrival_time v) (generate_voter_list self seed).
Proof.
  intros Hgaps. unfold generate_voter_list.
  rewrite generate_loop_arrivals. simpl.
  destruct (arrivals_from_ordered self _ (seed_rng seed) 0 Hgaps)
    as [Hfrom Hsorted].
  split; assumption.
Qed.

(** X12. A precinct with no voters: the generator produces the empty sequence,
    [simulate] returns the empty list and leaves any bank as it was, and
    both search routines return 1 for any positive number of trials. *)
Theorem no_voters (self : Precinct) (seed : Z) (voting_booths : VotingBooths)
    (impatience_threshold : Q) (fuel : nat) (num_booths num_trials : Z) :
  (num_voters self <= 0)%Z ->
  generate_voter_list self seed = [] /\
  simulate self seed voting_booths impatience_threshold
  = Ok ([], voting_booths) /\
  ((0 < num_trials)%Z -> (0 < fuel)%nat ->
   find_impatience_threshold fuel seed self num_booths num_trials
   = Some (Ok 1%Z) /\
   find_voting_booths_needed fuel seed self impatience_threshold num_trials
   = Some (Ok 1%Z)).
Proof.
  intros Hnone.
  assert (Hgen : forall sd, generate_voter_list self sd = []).
  { intros sd. unfold generate_voter_list.
    replace (Z.to_nat (num_voters self)) with 0%nat by lia. reflexivity. }
  assert (Hsim : forall sd vb thr, simulate self sd vb thr = Ok ([], vb)).
  { intros sd vb thr. unfold simulate. rewrite Hgen. reflexivity. }
  split; [apply Hgen|]. split; [apply Hsim|].
  intros Hpos Hfuel.
  assert (Hgt : (num_trials >? 0)%Z = true) by (apply Z.gtb_lt; lia).
  assert (Hlen : Z.of_nat (List.length
                   (map (fun _ : nat => 1%Z) (seq 0 (Z.to_nat num_trials))))
                 = num_trials).
  { rewrite length_map, length_seq. lia. }
  destruct (py_index_middle _ _ Hpos Hlen) as (m & Hm & _ & Hin).
  apply in_map_iff in Hin as (i & <- & _).
  destruct fuel as [|fuel]; [lia|].
  split.
  - unfold find_impatience_threshold. rewrite Hgt.
    rewrite (for_trials_Ok _ (fun _ => 1%Z)).
    + simpl app. cbv zeta. rewrite py_sorted_length, Hlen, Hm. reflexivity.
    + intros j _. rewrite threshold_while_S, Hsim. reflexivity.
  - unfold find_voting_booths_needed. rewrite Hgt.
    rewrite (for_trials_Ok _ (fun _ => 1%Z)).
    + simpl app. cbv zeta. rewrite Hlen, Hm. reflexivity.
    + intros j _. rewrite booths_while_S, Hsim. reflexivity.
Qed.

(** X13. Both search routines assert [num_trials > 0]: with [num_trials <= 0]
    they raise AssertionError before any simulation is run. *)
Theorem search_asserts_trials (fuel : nat) (seed : Z) (precinct : Precinct)
    (num_booths : Z) (imp_threshold : Q) (num_trials : Z) :
  (num_trials <= 0)%Z ->
  find_impatience_threshold fuel seed precinct num_booths num_trials
  = Some (Raise (AssertionError EmptyString)) /\
  find_voting_booths_needed fuel seed precinct imp_threshold num_trials
  = Some (Raise (AssertionError EmptyString)).
Proof.
  intros H. unfold find_impatience_threshold, find_voting_booths_needed.
  assert (Hgt : (num_trials >? 0)%Z = false).
  { rewrite Z.gtb_ltb. apply Z.ltb_ge. exact H. }
  rewrite Hgt. split; reflexivity.
Qed.

(** X14. The threshold search with no booth: if the first trial has an arrival,
    the search does not loop, it raises "No booths in use" from its first
    simulation. *)
Theorem threshold_search_no_booths (fuel : nat) (seed : Z)
    (precinct : Precinct) (num_booths num_trials : Z) :
  (num_booths <= 0)%Z ->
  (0 < num_trials)%Z -> (0 < fuel)%nat ->
  generate_voter_list precinct seed <> [] ->
  find_impatience_threshold fuel seed precinct num_booths num_trials
  = Some (Raise no_booths_error).
Proof.
  intros Hnb Hpos Hfuel Hne. unfold find_impatience_threshold.
  assert (Hgt : (num_trials >? 0)%Z = true) by (apply Z.gtb_lt; lia).
  rewrite Hgt.
  destruct (Z.to_nat num_trials) as [|n] eqn:En; [lia|].
  destruct fuel as [|fuel]; [lia|].
  cbn [seq for_trials]. rewrite threshold_while_S.
  replace (seed + Z.of_nat 0)%Z with seed by (simpl; lia).
  unfold simulate.
  destruct (generate_voter_list precinct seed) as [|v rest]; [congruence|].
  cbn [simulate_loop]. unfold process_voter.
  assert (Ha : is_booth_available (VotingBooths_init num_booths) = false).
  { unfold is_booth_available. simpl. apply Z.ltb_ge. exact Hnb. }
  rewrite Ha. reflexivity.
Qed.

End MoreGenerator.

Lemma generate_voter_list_ordered_witness :
  time_ordered (@generate_voter_list crowd_random crowd_precinct 0) /\
  Forall (fun v => 0 <= arrival_time v)
         (@generate_voter_list crowd_random crowd_precinct 0).
Proof.
  apply (@generate_voter_list_ordered crowd_random crowd_precinct 0).
  repeat constructor; unfold gap_of, Qle; simpl; lia.
Defined.

Lemma no_voters_witness :
  @simulate crowd_random empty_precinct 0 (VotingBooths_init 0) 5
  = Ok ([], VotingBooths_init 0) /\
  @find_impatience_threshold crowd_random 1 0 empty_precinct 0 3
  = Some (Ok 1%Z) /\
  @find_voting_booths_needed crowd_random 1 0 empty_precinct 5 3
  = Some (Ok 1%Z).
Proof.
  assert (H0 : (num_voters empty_precinct <= 0)%Z) by (simpl; lia).
  destruct (@no_voters crowd_random empty_precinct 0 (VotingBooths_init 0) 5
              1 0 3 H0) as (_ & Hsim & Hfind).
  split; [exact Hsim|]. apply Hfind; lia.
Defined.

Lemma search_asserts_trials_witness :
  @find_impatience_threshold crowd_random 5 0 crowd_precinct 1 0
  = Some (Raise (AssertionError EmptyString)) /\
  @find_voting_booths_needed crowd_random 5 0 crowd_precinct 5 0
  = Some (Raise (AssertionError EmptyString)).
Proof.
  apply (@search_asserts_trials crowd_random 5 0 crowd_precinct 1 5 0). lia.
Defined.

Lemma threshold_search_no_booths_witness :
  @find_impatience_threshold crowd_random 5 0 crowd_precinct 0 3
  = Some (Raise no_booths_error).
Proof.
  apply (@threshold_search_no_booths crowd_random 5 0 crowd_precinct 0 3).
  - lia.
  - lia.
  - lia.
  - discriminate.
Defined.

(** * What the searches return *)

Lemma for_trials_inv (trial : nat -> option (result Z)) (range : list nat) :
  forall value_list out : list Z,
    for_trials trial range value_list = Some (Ok out) ->
    exists values,
      out = value_list ++ values /\
      Forall2 (fun i x => trial i = Some (Ok x)) range values.
Proof.
  induction range as [|i range IH]; simpl; intros value_list out H.
  - inversion H; subst. exists []. rewrite app_nil_r. split; constructor.
  - destruct (trial i) as [[x|e]|] eqn:E; try discriminate.
    apply IH in H as (values & -> & HF).
    exists (x :: values). rewrite <- app_assoc. split; [reflexivity|].
    constructor; assumption.
Qed.

Lemma Forall2_In_r {A B : Type} (P : A -> B -> Prop) (l : list A)
    (l' : list B) (y : B) :
  Forall2 P l l' -> In y l' -> exists x, In x l /\ P x y.
Proof.
  induction 1 as [|a b l l' Hab _ IH]; simpl; [tauto|].
  intros [<-|Hin].
  - exists a. auto.
  - destruct (IH Hin) as (x & Hx & Hp). exists x. auto.
Qed.

Lemma py_index_In (l : list Z) (i m : Z) : py_index l i = Ok m -> In m l.
Proof.
  unfold py_index. destruct (nth_error l (Z.to_nat i)) as [x|] eqn:E;
    [|discriminate].
  intros H. inversion H; subst. eapply nth_error_In. exact E.
Qed.

Section SearchResults.

Context {R : PyRandom}.

Lemma threshold_while_sound (precinct : Precinct) (seed_i : Z)
    (num_booths : Z) (t : Z) :
  forall (fuel i : nat),
    threshold_while fuel precinct seed_i num_booths (-9 + 10 * Z.of_nat i)%Z
    = Some (Ok t) ->
    exists k, (i <= k)%nat /\ (k < i + fuel)%nat /\ t = threshold_at k /\
      trial_run precinct seed_i num_booths (inject_Z (threshold_at k)) true /\
      forall j, (i <= j)%nat -> (j < k)%nat ->
        trial_run precinct seed_i num_booths (inject_Z (threshold_at j)) false.
Proof.
  induction fuel as [|fuel IH]; intros i H; [discriminate|].
  rewrite threshold_while_S in H.
  replace (-9 + 10 * Z.of_nat i + 10)%Z with (threshold_at i) in H
    by (unfold threshold_at; lia).
  destruct (simulate precinct seed_i (VotingBooths_init num_booths)
              (inject_Z (threshold_at i))) as [[out vb]|] eqn:E;
    [|discriminate].
  destruct (all_voted out) eqn:Hall.
  - inversion H; subst. exists i.
    split; [lia|]. split; [lia|]. split; [reflexivity|].
    split; [exists out, vb; auto|intros j Hj1 Hj2; lia].
  - replace (threshold_at i) with (-9 + 10 * Z.of_nat (S i))%Z in H
      by (unfold threshold_at; lia).
    destruct (IH (S i) H) as (k & H1 & H2 & -> & Hk & Hbefore).
    exists k. split; [lia|]. split; [lia|]. split; [reflexivity|].
    split; [exact Hk|].
    intros j Hj1 Hj2. destruct (Nat.eq_dec j i) as [->|Hne].
    + exists out, vb. auto.
    + apply Hbefore; lia.
Qed.

Lemma booths_while_sound (precinct : Precinct) (seed_i : Z)
    (imp_threshold : Q) (b : Z) :
  forall (fuel i : nat),
    booths_while fuel precinct seed_i imp_threshold (Z.of_nat i)
    = Some (Ok b) ->
    exists k, (i <= k)%nat /\ (k < i + fuel)%nat /\ b = booths_at k /\
      trial_run precinct seed_i (booths_at k) imp_threshold true /\
      forall j, (i <= j)%nat -> (j < k)%nat ->
        trial_run precinct seed_i (booths_at j) imp_threshold false.
Proof.
  induction fuel as [|fuel IH]; intros i H; [discriminate|].
  rewrite booths_while_S in H. fold (booths_at i) in H.
  destruct (simulate precinct seed_i (VotingBooths_init (booths_at i))
              imp_threshold) as [[out vb]|] eqn:E; [|discriminate].
  destruct (all_voted out) eqn:Hall.
  - inversion H; subst. exists i.
    split; [lia|]. split; [lia|]. split; [reflexivity|].
    split; [exists out, vb; auto|intros j Hj1 Hj2; lia].
  - replace (booths_at i) with (Z.of_nat (S i)) in H
      by (unfold booths_at; lia).
    destruct (IH (S i) H) as (k & H1 & H2 & -> & Hk & Hbefore).
    exists k. split; [lia|]. split; [lia|]. split; [reflexivity|].
    split; [exact Hk|].
    intros j Hj1 Hj2. destruct (Nat.eq_dec j i) as [->|Hne].
    + exists out, vb. auto.
    + apply Hbefore; lia.
Qed.

(** X16. A threshold that [find_impatience_threshold] returns is the value some
    trial converged to: with it every voter of that trial votes, with every
    smaller value tried some voter of that trial does not, and it is 1 plus
    a multiple of 10. *)
Theorem threshold_search_sound (fuel : nat) (seed : Z) (precinct : Precinct)
    (num_booths num_trials median : Z) :
  find_impatience_threshold fuel seed precinct num_booths num_trials
  = Some (Ok median) ->
  (0 < num_trials)%Z /\
  exists i k : nat,
    (i < Z.to_nat num_trials)%nat /\ (k < fuel)%nat /\
    median = (1 + 10 * Z.of_nat k)%Z /\
    threshold_converges precinct (seed + Z.of_nat i) num_booths k.
Proof.
  unfold find_impatience_threshold. intros H.
  destruct (num_trials >? 0)%Z eqn:Hgt; [|discriminate].
  apply Z.gtb_lt in Hgt. split; [lia|].
  destruct (for_trials _ _ _) as [[l|e]|] eqn:E; try discriminate.
  apply for_trials_inv in E as (values & -> & HF). simpl in H.
  inversion H as [Hm]. apply py_index_In in Hm.
  apply (Permutation_in _ (py_sorted_Permutation values)) in Hm.
  destruct (Forall2_In_r _ _ _ _ HF Hm) as (i & Hi & Htrial).
  apply in_seq in Hi.
  apply (threshold_while_sound _ _ _ _ fuel 0%nat) in Htrial
    as (k & _ & Hk & -> & Hrun & Hbefore).
  exists i, k. repeat split; try lia.
  - unfold threshold_at. lia.
  - exact Hrun.
  - intros j Hj. apply Hbefore; lia.
Qed.

(** X17. A number of booths that [find_voting_booths_needed] returns is the
    value some trial converged to: with it every voter of that trial
    votes, with every smaller positive number of booths some voter of that
    trial does not, and it is at least 1. *)
Theorem booths_search_sound (fuel : nat) (seed : Z) (precinct : Precinct)
    (imp_threshold : Q) (num_trials median : Z) :
  find_voting_booths_needed fuel seed precinct imp_threshold num_trials
  = Some (Ok median) ->
  (0 < num_trials)%Z /\
  exists i k : nat,
    (i < Z.to_nat num_trials)%nat /\ (k < fuel)%nat /\
    median = (Z.of_nat k + 1)%Z /\
    booths_converge precinct (seed + Z.of_nat i) imp_threshold k.
Proof.
  unfold find_voting_booths_needed. intros H.
  destruct (num_trials >? 0)%Z eqn:Hgt; [|discriminate].
  apply Z.gtb_lt in Hgt. split; [lia|].
  destruct (for_trials _ _ _) as [[l|e]|] eqn:E; try discriminate.
  apply for_trials_inv in E as (values & -> & HF). simpl in H.
  inversion H as [Hm]. apply py_index_In in Hm.
  apply (Permutation_in _ (py_sorted_Permutation values)) in Hm.
  destruct (Forall2_In_r _ _ _ _ HF Hm) as (i & Hi & Htrial).
  apply in_seq in Hi.
  apply (booths_while_sound _ _ _ _ fuel 0%nat) in Htrial
    as (k & _ & Hk & -> & Hrun & Hbefore).
  exists i, k. repeat split; try lia.
  - exact Hrun.
  - intros j Hj. apply Hbefore; lia.
Qed.


End SearchResults.

Ltac timed :=
  repeat first
    [ constructor
    | progress (unfold Qlt, Qle; simpl)
    | lia ].

Lemma threshold_search_sound_witness :
  (0 < 3)%Z /\
  exists i k : nat,
    (i < Z.to_nat 3)%nat /\ (k < 5)%nat /\
    11%Z = (1 + 10 * Z.of_nat k)%Z /\
    @threshold_converges trials_random trials_precinct (0 + Z.of_nat i) 1 k.
Proof.
  apply (@threshold_search_sound trials_random 5 0 trials_precinct 1 3 11).
  vm_compute. reflexivity.
Defined.

Lemma booths_search_sound_witness :
  (0 < 3)%Z /\
  exists i k : nat,
    (i < Z.to_nat 3)%nat /\ (k < 5)%nat /\
    2%Z = (Z.of_nat k + 1)%Z /\
    @booths_converge trials_random trials_precinct (0 + Z.of_nat i) 5 k.
Proof.
  apply (@booths_search_sound trials_random 5 0 trials_precinct 5 3 2).
  vm_compute. reflexivity.
Defined.


(** * The summary printed by [cmd] *)

Lemma processed_departs (v v' : Voter) :
  new_voter v -> well_timed v -> processed v v' ->
  py_truthy (departure_time v') = has_voted v'.
Proof.
  intros (_ & Hd & Hv) [Hpos Hdur] [|s Hle].
  - rewrite Hd, Hv. reflexivity.
  - simpl. apply negb_true_iff.
    destruct (Qeq_bool (s + voting_duration v) 0) eqn:E; [|reflexivity].
    apply Qeq_bool_iff in E. exfalso.
    assert (H0 : 0 < s + voting_duration v).
    { setoid_replace 0 with (0 + 0) by ring.
      apply Qplus_lt_le_compat; [|exact Hdur].
      eapply Qlt_le_trans; eassumption. }
    rewrite E in H0. apply (Qlt_irrefl _ H0).
Qed.

Lemma scan_departure_last (reversed : list Voter) :
  Forall (fun v => py_truthy (departure_time v) = has_voted v) reversed ->
  existsb has_voted reversed = true ->
  exists later v earlier,
    reversed = later ++ v :: earlier /\
    forallb (fun w => negb (has_voted w)) later = true /\
    has_voted v = true /\
    scan_departure reversed = departure_time v.
Proof.
  induction 1 as [|v l Hv _ IH]; simpl; [discriminate|].
  rewrite Hv. destruct (has_voted v) eqn:E; simpl.
  - intros _. exists [], v, l. repeat split. exact E.
  - intros Hex. destruct (IH Hex) as (later & w & earlier & -> & Hl & Hw & Hs).
    exists (v :: later), w, earlier. simpl. rewrite E, Hl. repeat split.
    + exact Hw.
    + exact Hs.
Qed.

Lemma process_voter_available (thr : Q) (vb vb' : VotingBooths) (ref : nat)
    (v v' : Voter) :
  is_booth_available vb = true ->
  process_voter thr vb ref v = Ok (v', vb') -> has_voted v' = true.
Proof.
  unfold process_voter. intros Ha. rewrite Ha. simpl.
  destruct (enter_booth vb ref _); simpl; [|discriminate].
  intros H. inversion H; subst. reflexivity.
Qed.

Lemma run_steps_processed (thr : Q) (vb vb' : VotingBooths) (ref : nat)
    (vs outs : list Voter) :
  run_steps thr vb ref vs outs vb' -> Forall2 processed vs outs.
Proof.
  induction 1 as [|vb vb1 vb' ref v v' vs outs E Hr IH]; constructor.
  - eapply process_voter_processed. exact E.
  - exact IH.
Qed.

Section Summary.

Context {R : PyRandom}.

(** X20. The summary of a run on a new bank with at least one booth, for an
    arrival sequence that is not empty and well timed: the scan finds a
    departure time, so the line about the last voter has a number to
    format; it is the departure time of the last voter in arrival order
    that voted; and the figure printed as "voters voted", the length of the
    list, is the number of voters that voted plus [nv]. *)
Theorem cmd_summary (self : Precinct) (seed : Z) (num_booths : Z)
    (impatience_threshold : Q) (voters : list Voter)
    (booths_after : VotingBooths) :
  (1 <= num_booths)%Z ->
  generate_voter_list self seed <> [] ->
  Forall well_timed (generate_voter_list self seed) ->
  simulate self seed (VotingBooths_init num_booths) impatience_threshold
  = Ok (voters, booths_after) ->
  (exists (earlier later : list Voter) (v : Voter) (d : Q),
      voters = earlier ++ v :: later /\
      has_voted v = true /\
      forallb (fun w => negb (has_voted w)) later = true /\
      departure_time v = Some d /\
      last_voter_departure_time voters = Some d) /\
  List.length voters = (count_voted voters + nv voters)%nat.
Proof.
  intros Hn Hne Hwt H. unfold simulate in H.
  assert (Hnew := generate_voter_list_new self seed).
  apply simulate_loop_run_steps in H as (outs & -> & Hr). simpl.
  split.
  - assert (HF : Forall (fun v => py_truthy (departure_time v) = has_voted v)
                        outs).
    { assert (Hp := run_steps_processed _ _ _ _ _ _ Hr).
      clear Hr Hne.
      induction Hp as [|v v' l l' Hvv' _ IH]; constructor.
      - inversion Hnew; inversion Hwt; subst.
        apply (processed_departs v); assumption.
      - inversion Hnew; inversion Hwt; subst. apply IH; assumption. }
    assert (Hfirst : existsb has_voted (rev outs) = true).
    { inversion Hr as [|? vb1 ? ? v v' vs outs' E Hr' Heq]; subst;
        [congruence|].
      apply existsb_exists. exists v'. split.
      - apply in_rev. rewrite rev_involutive. left. reflexivity.
      - eapply process_voter_available; [|exact E].
        unfold is_booth_available, PriorityQueue.qsize. simpl.
        apply Z.ltb_lt. lia. }
    destruct (scan_departure_last (rev outs))
      as (later & v & earlier & Hrev & Hl & Hv & Hs).
    + apply Forall_rev. exact HF.
    + exact Hfirst.
    + assert (Hout : outs = rev earlier ++ v :: rev later).
      { rewrite <- (rev_involutive outs), Hrev, rev_app_distr. simpl.
        rewrite <- app_assoc. reflexivity. }
      assert (Hd : exists d, departure_time v = Some d).
      { rewrite Forall_forall in HF.
        assert (Hin : In v outs).
        { rewrite Hout. apply in_or_app. right. left. reflexivity. }
        specialize (HF v Hin). rewrite Hv in HF.
        destruct (departure_time v) as [d|]; [eauto|discriminate]. }
      destruct Hd as (d & Hd).
      exists (rev earlier), (rev later), v, d.
      split; [exact Hout|]. split; [exact Hv|]. split.
      * rewrite forallb_forall in *. intros w Hw. apply Hl.
        apply in_rev. exact Hw.
      * split; [exact Hd|].
        unfold last_voter_departure_time. rewrite Hs. exact Hd.
  - unfold count_voted, nv. clear.
    induction outs as [|v l IH]; simpl; [reflexivity|].
    destruct (has_voted v); simpl; lia.
Qed.

End Summary.

Lemma cmd_summary_witness :
  exists (voters : list Voter) (d : Q),
    last_voter_departure_time voters = Some d /\
    List.length voters = (count_voted voters + nv voters)%nat.
Proof.
  destruct (@cmd_summary crowd_random crowd_precinct 0 1 9
              [mkVoter (0 + 1) 10 (Some (0 + 1)) (Some (0 + 1 + 10)) true
                       false;
               mkVoter (0 + 1 + 1) 100 (Some (0 + 1 + 10))
                       (Some (0 + 1 + 10 + 100)) true true;
               Voter_init (0 + 1 + 1 + 6) 1 true;
               Voter_init (0 + 1 + 1 + 6 + 1) 1 true]
              (mkVotingBooths 1 [(0 + 1 + 10 + 100, 1%nat)]))
    as [(earlier & later & v & d & _ & _ & _ & _ & Hlast) Hlen].
  - lia.
  - discriminate.
  - timed.
  - reflexivity.
  - eexists _, d. split; [exact Hlast|exact Hlen].
Defined.
